(** * MSSQL MCP server: a shallow embedding of [server.py]

    The development follows [src/mssql_mcp_server/server.py]:

    - [PyStr]     the Python string operations the handlers use;
    - [Config]    [get_db_config] and its helper [clean_env_var];
    - [Handlers]  [list_resources], [read_resource] and [call_tool], written in
                  a state-and-exception monad over an abstract database driver;
    - [Mock]      a scripted driver on which the handlers can be run;

    then the vocabulary of the statements, and the statements with their
    proofs, claim by claim.

    Strings are sequences of 8-bit characters. Python's [str] operations
    are modelled as they act on ASCII text: white space, case mapping,
    alphanumeric tests, lengths and [repr] agree with Python's on every text
    for which [isascii] holds and are not meant beyond it. A statement whose
    conclusion depends on how the text of a query is trimmed and upper-cased
    either has a hypothesis that implies the code's own test on every text
    or asks for [isascii] of that text. *)

From Stdlib Require Import ZArith String Ascii List Bool Lia DecimalString.
From stdpp Require Import base option gmap strings.

Import ListNotations.
Local Open Scope string_scope.
Local Open Scope list_scope.

(** ** Python string operations *)

Module PyStr.

(** The characters that cannot be written inside a literal. *)
Definition nl : ascii := "010"%char.
Definition dquote : ascii := "034"%char.
Definition squote : ascii := "039"%char.

Definition NL : string := String nl EmptyString.

(** [len(s)] *)
Definition len (s : string) : Z := Z.of_nat (String.length s).

(** Truth value of a string: [if s]. *)
Definition truthy (s : string) : bool :=
  match s with EmptyString => false | String _ _ => true end.

(** [s.startswith(p)] *)
Definition startswith (s p : string) : bool := String.prefix p s.

(** [s.endswith(p)] *)
Definition endswith (s p : string) : bool :=
  let n := String.length s in
  let k := String.length p in
  (k <=? n)%nat && String.eqb (String.substring (n - k) k s) p.

(** A slice bound, as Python normalises it against the length [n]. *)
Definition clamp (n i : Z) : Z :=
  if (i <? 0)%Z then Z.max (i + n) 0 else Z.min i n.

(** [s[start:stop]]; an omitted bound is [None]. *)
Definition slice (s : string) (start stop : option Z) : string :=
  let n := len s in
  let lo := match start with Some i => clamp n i | None => 0%Z end in
  let hi := match stop with Some j => clamp n j | None => n end in
  String.substring (Z.to_nat lo) (Z.to_nat (hi - lo)) s.

Definition is_upper (c : ascii) : bool :=
  let n := nat_of_ascii c in (65 <=? n)%nat && (n <=? 90)%nat.
Definition is_lower (c : ascii) : bool :=
  let n := nat_of_ascii c in (97 <=? n)%nat && (n <=? 122)%nat.
Definition is_digit (c : ascii) : bool :=
  let n := nat_of_ascii c in (48 <=? n)%nat && (n <=? 57)%nat.

(** [c.isalnum()] *)
Definition isalnum (c : ascii) : bool := is_upper c || is_lower c || is_digit c.

(** [c.isspace()] for an ASCII character: tab, line feed, vertical tab, form
    feed, carriage return, the four separators 28..31 and the space. (The
    blanks Python knows beyond ASCII, such as the no-break space, are outside
    this table.) *)
Definition isspace (c : ascii) : bool :=
  let n := nat_of_ascii c in
  ((9 <=? n)%nat && (n <=? 13)%nat) || ((28 <=? n)%nat && (n <=? 32)%nat).

(** [c.upper()] for an ASCII character. (Characters beyond ASCII that
    Python maps to ASCII capitals, such as the long s, are outside it.) *)
Definition upper_char (c : ascii) : ascii :=
  if is_lower c then ascii_of_nat (nat_of_ascii c - 32) else c.

(** [s.upper()] *)
Fixpoint upper (s : string) : string :=
  match s with
  | EmptyString => EmptyString
  | String c s' => String (upper_char c) (upper s')
  end.

(** [s.lstrip()] *)
Fixpoint lstrip (s : string) : string :=
  match s with
  | EmptyString => EmptyString
  | String c s' => if isspace c then lstrip s' else s
  end.

(** [s.rstrip()] *)
Fixpoint rstrip (s : string) : string :=
  match s with
  | EmptyString => EmptyString
  | String c s' =>
      match rstrip s' with
      | EmptyString => if isspace c then EmptyString else String c EmptyString
      | r => String c r
      end
  end.

(** [s.strip()] *)
Definition strip (s : string) : string := rstrip (lstrip s).

(** [sep.join(l)] *)
Fixpoint join (sep : string) (l : list string) : string :=
  match l with
  | [] => EmptyString
  | [x] => x
  | x :: rest => x +:+ sep +:+ join sep rest
  end.

(** [s.split(c)] for a one-character separator: the pieces between the
    occurrences of [c], always at least one piece. *)
Fixpoint split (c : ascii) (s : string) : list string :=
  match s with
  | EmptyString => [EmptyString]
  | String a s' =>
      if Ascii.eqb a c then EmptyString :: split c s'
      else match split c s' with
           | [] => [String a EmptyString]
           | p :: ps => String a p :: ps
           end
  end.

(** [needle in hay] *)
Fixpoint contains (hay needle : string) : bool :=
  String.prefix needle hay ||
  match hay with
  | EmptyString => false
  | String _ hay' => contains hay' needle
  end.

(** [''.join([c for c in s if keep(c)])] *)
Fixpoint filter_chars (keep : ascii -> bool) (s : string) : string :=
  match s with
  | EmptyString => EmptyString
  | String c s' =>
      if keep c then String c (filter_chars keep s') else filter_chars keep s'
  end.

(** Number of occurrences of the character [c] in [s]. *)
Fixpoint count (c : ascii) (s : string) : nat :=
  match s with
  | EmptyString => 0
  | String a s' => (if Ascii.eqb a c then 1 else 0) + count c s'
  end.

(** [str(z)] for an integer. *)
Definition str_of_Z (z : Z) : string := NilZero.string_of_int (Z.to_int z).

(** [s.isascii()] *)
Fixpoint isascii (s : string) : bool :=
  match s with
  | EmptyString => true
  | String c s' => (nat_of_ascii c <? 128)%nat && isascii s'
  end.

Definition backslash : ascii := "092"%char.

(** One hexadecimal digit, in lower case. *)
Definition hex_digit (n : nat) : ascii :=
  ascii_of_nat (if (n <? 10)%nat then 48 + n else 87 + n).

(** How [repr] writes one character of an ASCII text between the quote
    character [quote]. *)
Definition repr_char (quote c : ascii) : string :=
  let n := nat_of_ascii c in
  if Ascii.eqb c quote || Ascii.eqb c backslash then
    String backslash (String c EmptyString)
  else if (n =? 9)%nat then String backslash "t"
  else if (n =? 10)%nat then String backslash "n"
  else if (n =? 13)%nat then String backslash "r"
  else if (n <? 32)%nat || (n =? 127)%nat then
    String backslash
      (String "x" (String (hex_digit (n / 16)) (String (hex_digit (n mod 16)) EmptyString)))
  else String c EmptyString.

Fixpoint repr_chars (quote : ascii) (s : string) : string :=
  match s with
  | EmptyString => EmptyString
  | String c s' => repr_char quote c +:+ repr_chars quote s'
  end.

(** [repr(s)] of an ASCII text: between single quotes, or between double
    quotes when the text holds a single quote and no double quote; the quote
    character, the backslash and the control characters escaped. *)
Definition repr_str (s : string) : string :=
  let quote :=
    if (0 <? count squote s)%nat && (count dquote s =? 0)%nat
    then dquote else squote in
  String quote (repr_chars quote s +:+ String quote EmptyString).

End PyStr.

Import PyStr.

(** ** Configuration: [get_db_config] *)

Module Config.

(** The process environment, [os.environ]. *)
Abbreviation environ := (gmap string string).

Inductive level := INFO | WARNING | ERROR.

(** One call of [logger.info], [logger.warning] or [logger.error]. *)
Definition log_record : Type := level * string.

(** Exceptions, each with the text [str(e)] gives. [Error] is [pyodbc.Error]
    with its subclasses; [OtherException] is any further subclass of
    [Exception] a driver may raise. *)
Inductive exn :=
| Error (msg : string)
| ValueError (msg : string)
| RuntimeError (msg : string)
| TypeError (msg : string)
| IndexError (msg : string)
| OtherException (msg : string).

Definition exn_str (e : exn) : string :=
  match e with
  | Error m | ValueError m | RuntimeError m | TypeError m
  | IndexError m | OtherException m => m
  end.

(** [isinstance(e, pyodbc.Error)] *)
Definition is_Error (e : exn) : bool :=
  match e with Error _ => true | _ => false end.

(** [os.getenv(name, default)] *)
Definition getenv (env : environ) (name : string) (default : option string)
  : option string :=
  match env !! name with
  | Some v => Some v
  | None => default
  end.

(** Truth value of a string or [None]. *)
Definition truthy_opt (o : option string) : bool :=
  match o with Some s => truthy s | None => false end.

(** How an f-string renders a string or [None]. *)
Definition fmt (o : option string) : string :=
  match o with Some s => s | None => "None" end.

Definition SQ : string := String squote EmptyString.
Definition DQ : string := String dquote EmptyString.

(** The helper nested in [get_db_config]. *)
Definition clean_env_var (env : environ) (env_var : string)
    (default : option string) : option string :=
  match getenv env env_var default with
  | Some value =>
      if truthy value
         && ((startswith value SQ && endswith value SQ)
             || (startswith value DQ && endswith value DQ))
      then Some (slice value (Some 1%Z) (Some (-1)%Z))
      else Some value
  | None => None
  end.

(** The dictionary [config] that [get_db_config] returns. *)
Record db_config := {
  cfg_driver : option string;
  cfg_server : string;
  cfg_user : option string;
  cfg_database : option string;
  cfg_password : string
}.

(** The log lines about the password (lines 37-43 of the source), for an
    ASCII password: length, slices and [isalnum] are counted in 8-bit
    characters with the ASCII classes. *)
Definition password_log (password : option string) : list log_record :=
  match password with
  | Some pw =>
      if truthy pw && (4 <? len pw)%Z then
        let special_chars := filter_chars (fun c => negb (isalnum c)) pw in
        [(INFO, "Debug - Password format: begins with '"
                  +:+ slice pw None (Some 2%Z) +:+ "', ends with '"
                  +:+ slice pw (Some (-2)%Z) None
                  +:+ "', contains special chars: '" +:+ special_chars +:+ "'")]
      else [(WARNING, "Password is too short or not provided!")]
  | None => [(WARNING, "Password is too short or not provided!")]
  end.

(** [get_db_config()]: the lines logged, then the exception raised or the
    pair [(config, connection_string)]. *)
Definition get_db_config (env : environ)
  : list log_record * (exn + (db_config * string)) :=
  let driver := clean_env_var env "MSSQL_DRIVER" (Some "ODBC Driver 18 for SQL Server") in
  let server := clean_env_var env "MSSQL_HOST" (Some "localhost") in
  let port := clean_env_var env "MSSQL_PORT" (Some "1433") in
  let user := clean_env_var env "MSSQL_USER" None in
  let password := clean_env_var env "MSSQL_PASSWORD" None in
  let database := clean_env_var env "MSSQL_DATABASE" None in
  let logs :=
    [(INFO, "Reading database configuration from environment variables...")]
    ++ password_log password
    ++ [(INFO, "Using driver: " +:+ fmt driver);
        (INFO, "Connecting to server: " +:+ fmt server +:+ ":" +:+ fmt port);
        (INFO, "Database: " +:+ fmt database +:+ ", User: " +:+ fmt user)] in
  if negb (truthy_opt user && truthy_opt password && truthy_opt database) then
    (logs ++
       [(ERROR, "Missing required database configuration. Please check environment variables:");
        (ERROR, "MSSQL_USER, MSSQL_PASSWORD, and MSSQL_DATABASE are required")],
     inl (ValueError "Missing required database configuration"))
  else
    let connection_params :=
      ["Driver={" +:+ fmt driver +:+ "}";
       "Server=" +:+ fmt server +:+ "," +:+ fmt port;
       "Database=" +:+ fmt database;
       "UID=" +:+ fmt user;
       "PWD=" +:+ fmt password;
       "TrustServerCertificate=" +:+ fmt (getenv env "TrustServerCertificate" (Some "yes"));
       "Encrypt=" +:+ fmt (getenv env "Encrypt" (Some "yes"));
       "Connection Timeout=" +:+ fmt (getenv env "ConnectionTimeout" (Some "60"));
       "Login Timeout=" +:+ fmt (getenv env "LoginTimeout" (Some "60"));
       "MARS_Connection=yes"] in
    let connection_string := join ";" connection_params in
    let config :=
      {| cfg_driver := driver;
         cfg_server := fmt server +:+ ":" +:+ fmt port;
         cfg_user := user;
         cfg_database := database;
         cfg_password := "********" |} in
    (logs ++
       [(INFO, "Connection string format: Driver={...};Server=...;Database=...;UID=...;PWD=***;...")],
     inr (config, connection_string)).

End Config.

Import Config.

(** ** The handlers *)

Module Handlers.

(** *** Values, result sets and protocol records *)

(** A cell of a fetched row. [PyObj] stands for any other object the driver
    hands out (a decimal, a date, a float, bytes), by the name of its type and
    the text [str] gives for it. *)
Inductive pyval :=
| PyNone
| PyBool (b : bool)
| PyInt (z : Z)
| PyStr (s : string)
| PyObj (type_name text : string).

(** [str(v)] *)
Definition py_str (v : pyval) : string :=
  match v with
  | PyNone => "None"
  | PyBool true => "True"
  | PyBool false => "False"
  | PyInt z => str_of_Z z
  | PyStr s => s
  | PyObj _ text => text
  end.

(** [type(v).__name__] *)
Definition py_type (v : pyval) : string :=
  match v with
  | PyNone => "NoneType"
  | PyBool _ => "bool"
  | PyInt _ => "int"
  | PyStr _ => "str"
  | PyObj type_name _ => type_name
  end.

Definition row : Type := list pyval.

(** An entry of [cursor.description]; [desc[0]] is the column name. *)
Record column_desc := { desc_name : string; desc_type_code : string }.

(** [mcp.types.Resource], as the fields the handler fills in. *)
Record Resource := {
  uri : string;
  name : string;
  mimeType : string;
  description : string
}.

(** [mcp.types.TextContent] *)
Record TextContent := { type : string; text : string }.

(** A JSON value of the kinds an input schema is written with. *)
Local Unset Elimination Schemes.
Inductive json :=
| JString (s : string)
| JArray (items : list json)
| JObject (fields : list (string * json)).
Local Set Elimination Schemes.

(** [mcp.types.Tool] *)
Record Tool := {
  tool_name : string;
  tool_description : string;
  inputSchema : json
}.

(** *** The database driver

    What the handlers use of [pyodbc]: [connect], the connection and its
    cursor. Each call takes the state of the outside world to a new one and
    returns or raises. The [__exit__] methods receive the exception in
    flight, if any, and return a false value when they return.
    [conn_close] is the connection's [close()]. *)
Record Driver (W : Type) := {
  connect : string -> W -> W * (exn + unit);
  conn_cursor : W -> W * (exn + unit);
  conn_commit : W -> W * (exn + unit);
  conn_exit : option exn -> W -> W * (exn + unit);
  conn_close : W -> W * (exn + unit);
  cursor_execute : string -> W -> W * (exn + unit);
  cursor_fetchall : W -> W * (exn + list row);
  cursor_description : W -> option (list column_desc);
  cursor_rowcount : W -> Z;
  cursor_exit : option exn -> W -> W * (exn + unit)
}.
Arguments connect {W}.
Arguments conn_cursor {W}.
Arguments conn_commit {W}.
Arguments conn_exit {W}.
Arguments conn_close {W}.
Arguments cursor_execute {W}.
Arguments cursor_fetchall {W}.
Arguments cursor_description {W}.
Arguments cursor_rowcount {W}.
Arguments cursor_exit {W}.

(** What a handler does that can be observed from outside, in order. *)
Inductive event :=
| Log (r : log_record)
| Connect (cs : string)   (* [connect(cs)] is called *)
| Opened                  (* ... and has returned a connection *)
| ConnExit                (* the connection's [__exit__]: it is released *)
| Cursor                  (* [conn.cursor()] *)
| CursorExit              (* the cursor's [__exit__] *)
| Execute (sql : string)  (* [cursor.execute(sql)] *)
| Fetchall                (* [cursor.fetchall()] *)
| Commit                  (* [conn.commit()] *)
| Rowcount.               (* [cursor.rowcount] is read *)

Record state (W : Type) := { world : W; trace : list event }.
Arguments world {W}.
Arguments trace {W}.

(** *** The monad: state, trace and exceptions *)

Definition M (W A : Type) : Type := state W -> state W * (exn + A).

Global Instance M_ret {W} : MRet (M W) := fun A a s => (s, inr a).

Global Instance M_bind {W} : MBind (M W) := fun A B f m s =>
  match m s with
  | (s', inr a) => f a s'
  | (s', inl e) => (s', inl e)
  end.

Definition raise {W A} (e : exn) : M W A := fun s => (s, inl e).

Definition emit {W} (ev : event) : M W unit := fun s =>
  ({| world := world s; trace := trace s ++ [ev] |}, inr tt).

Definition emit_all {W} (evs : list event) : M W unit := fun s =>
  ({| world := world s; trace := trace s ++ evs |}, inr tt).

(** [logger.info(msg)] and its siblings. *)
Definition log {W} (l : level) (msg : string) : M W unit := emit (Log (l, msg)).

(** A call into the driver. *)
Definition call {W A} (f : W -> W * (exn + A)) : M W A := fun s =>
  let '(w, r) := f (world s) in ({| world := w; trace := trace s |}, r).

(** An attribute read on a driver object. *)
Definition read {W A} (f : W -> A) : M W A := fun s => (s, inr (f (world s))).

(** An exception or a value computed without the driver. *)
Definition lift {W A} (r : exn + A) : M W A := fun s => (s, r).

(** [try: m  except ...: h e]; [h] answers [None] for an exception that no
    [except] clause matches. *)
Definition try_except {W A} (m : M W A) (h : exn -> option (M W A)) : M W A :=
  fun s =>
    match m s with
    | (s', inr a) => (s', inr a)
    | (s', inl e) =>
        match h e with
        | Some k => k s'
        | None => (s', inl e)
        end
    end.

(** The body and the exit of [with ... :], once the manager is entered:
    [exit_] runs on every way out of [body], with the exception in flight;
    an exception of [exit_] itself replaces the outcome. *)
Definition with_exit {W A} (exit_ : option exn -> M W unit) (body : M W A)
  : M W A :=
  fun s =>
    match body s with
    | (s1, inr a) =>
        match exit_ None s1 with
        | (s2, inr _) => (s2, inr a)
        | (s2, inl e') => (s2, inl e')
        end
    | (s1, inl e) =>
        match exit_ (Some e) s1 with
        | (s2, inr _) => (s2, inl e)
        | (s2, inl e') => (s2, inl e')
        end
    end.

(** The loop of a list comprehension whose element expression may raise. *)
Fixpoint for_each {W A B} (f : A -> M W B) (l : list A) : M W (list B) :=
  match l with
  | [] => mret []
  | x :: rest => y ← f x; ys ← for_each f rest; mret (y :: ys)
  end.

(** *** Pure pieces of the handlers *)

(** [row[0]] *)
Definition item0 (r : row) : exn + pyval :=
  match r with
  | v :: _ => inr v
  | [] => inl (IndexError "tuple index out of range")
  end.

(** [",".join(map(str, row))] *)
Definition serialize_row (r : row) : string := join "," (map py_str r).

(** ["\n".join([",".join(columns)] + [",".join(map(str, row)) for row in rows])],
    the expression shared by [read_resource] and the SELECT branch. *)
Definition tabular (columns : list string) (rows : list row) : string :=
  join NL (join "," columns :: map serialize_row rows).

(** [sep.join(items)] on arbitrary objects: every item has to be a string.
    [i] is the position of the first item. *)
Fixpoint join_values (i : nat) (items : list pyval) : exn + list string :=
  match items with
  | [] => inr []
  | PyStr s :: rest =>
      match join_values (S i) rest with
      | inr l => inr (s :: l)
      | inl e => inl e
      end
  | v :: _ =>
      inl (TypeError ("sequence item " +:+ str_of_Z (Z.of_nat i)
                      +:+ ": expected str instance, " +:+ py_type v +:+ " found"))
  end.

(** [[desc[0] for desc in cursor.description]] *)
Definition column_names (d : option (list column_desc)) : exn + list string :=
  match d with
  | Some ds => inr (map desc_name ds)
  | None => inl (TypeError "'NoneType' object is not iterable")
  end.

Definition catalog_query : string :=
  "SELECT TABLE_NAME FROM INFORMATION_SCHEMA.TABLES WHERE TABLE_TYPE = 'BASE TABLE';".

(** The fields [list_resources] fills in for one table name. (The checks
    the [Resource] class of the protocol library runs on them are not part
    of this model: statements about [list_resources] returning resources
    are limited to what does not depend on them.) *)
Definition resource_of (table_name : string) : Resource :=
  {| uri := "mssql://" +:+ table_name +:+ "/data";
     name := "Table: " +:+ table_name;
     mimeType := "text/plain";
     description := "Data in table: " +:+ table_name |}.

(** [arguments.get(key)] on the dictionary of a tool call. *)
Fixpoint dict_get (d : list (string * string)) (key : string) : option string :=
  match d with
  | [] => None
  | (k, v) :: rest => if String.eqb k key then Some v else dict_get rest key
  end.

(** [repr] of the dictionary of a tool call, as an f-string writes it into a
    log line: the items in order, each key and value by [repr]. The
    arguments are modelled with string values, the kind the tool's schema
    asks for; [repr] of another value is not modelled. *)
Definition dict_repr (d : list (string * string)) : string :=
  "{" +:+ join ", " (map (fun kv => repr_str (fst kv) +:+ ": " +:+ repr_str (snd kv)) d) +:+ "}".

(** The table a resource address names: [uri_str[8:].split('/')[0]]. *)
Definition table_of_uri (uri_str : string) : exn + string :=
  match split "/" (slice uri_str (Some 8%Z) None) with
  | table :: _ => inr table
  | [] => inl (IndexError "list index out of range")
  end.

(** *** The handlers proper *)

Section Server.
Context {W : Type} (drv : Driver W) (env : environ).

(** [get_db_config()] as a step of a handler: its log lines, then its
    exception or its result. *)
Definition get_db_config_m : M W (db_config * string) :=
  emit_all (map Log (fst (get_db_config env)));;
  lift (snd (get_db_config env)).

(** [with connect(connection_string) as conn: body]. When [connect] raises
    there is no connection and nothing to leave; when it returns, the
    connection is entered ([__enter__] returns the connection itself) and
    its [__exit__] runs on every way out of [body]. *)
Definition with_connection {A} (connection_string : string) (body : M W A)
  : M W A :=
  emit (Connect connection_string);;
  call (connect drv connection_string);;
  emit Opened;;
  with_exit (fun exc => emit ConnExit;; call (conn_exit drv exc)) body.

(** [with conn.cursor() as cursor: body] *)
Definition with_cursor {A} (body : M W A) : M W A :=
  emit Cursor;;
  call (conn_cursor drv);;
  with_exit (fun exc => emit CursorExit;; call (cursor_exit drv exc)) body.

Definition execute (sql : string) : M W unit :=
  emit (Execute sql);; call (cursor_execute drv sql).

Definition fetchall : M W (list row) :=
  emit Fetchall;; call (cursor_fetchall drv).

Definition commit : M W unit :=
  emit Commit;; call (conn_commit drv).

Definition rowcount : M W Z :=
  emit Rowcount;; read (cursor_rowcount drv).

(** The [except Error as e:] clause of [list_resources]. *)
Definition list_resources_handler (e : exn) : option (M W (list Resource)) :=
  if is_Error e then
    Some (let error_msg := exn_str e in
          log ERROR ("Failed to list resources: " +:+ error_msg);;
          (if contains error_msg "Login timeout expired" then
             log ERROR "Connection timed out - check network/firewall settings or increase timeout"
           else if contains error_msg "Cannot open database" then
             log ERROR "Database access error - check database name and user permissions"
           else if contains error_msg "Login failed" then
             log ERROR "Authentication failed - check username and password"
           else mret tt);;
          mret [])
  else None.

Definition list_resources : M W (list Resource) :=
  '(config, connection_string) ← get_db_config_m;
  try_except
    (log INFO "Attempting to connect to database to list resources...";;
     with_connection connection_string
       (log INFO "Database connection established successfully";;
        with_cursor
          (execute catalog_query;;
           tables ← fetchall;
           log INFO ("Found " +:+ str_of_Z (Z.of_nat (length tables)) +:+ " tables");;
           for_each (fun table => t ← lift (item0 table);
                                  mret (resource_of (py_str t)))
                    tables)))
    list_resources_handler.

(** The [except Error as e:] clause of [read_resource]. *)
Definition read_resource_handler (uri_str : string) (e : exn)
  : option (M W string) :=
  if is_Error e then
    Some (log ERROR ("Database error reading resource " +:+ uri_str +:+ ": " +:+ exn_str e);;
          raise (RuntimeError ("Database error: " +:+ exn_str e)))
  else None.

(** [read_resource(uri)]; [uri_str] is the text [str(uri)]. *)
Definition read_resource (uri_str : string) : M W string :=
  '(config, connection_string) ← get_db_config_m;
  log INFO ("Reading resource: " +:+ uri_str);;
  if negb (startswith uri_str "mssql://") then
    raise (ValueError ("Invalid URI scheme: " +:+ uri_str))
  else
    table ← lift (table_of_uri uri_str);
    try_except
      (with_connection connection_string
         (with_cursor
            (execute ("SELECT TOP 100 * FROM " +:+ table);;
             d ← read (cursor_description drv);
             columns ← lift (column_names d);
             rows ← fetchall;
             mret (tabular columns rows))))
      (read_resource_handler uri_str).

(** [list_tools()] *)
Definition list_tools : M W (list Tool) :=
  log INFO "Listing tools...";;
  mret [ {| tool_name := "execute_sql";
            tool_description := "Execute an SQL query on the MSSQL server";
            inputSchema :=
              JObject
                [("type", JString "object");
                 ("properties",
                  JObject
                    [("query",
                      JObject [("type", JString "string");
                               ("description", JString "The SQL query to execute")])]);
                 ("required", JArray [JString "query"])] |} ].

Definition text_content (s : string) : list TextContent :=
  [{| type := "text"; text := s |}].

(** The [with] statement inside the [try] of [call_tool]. *)
Definition call_tool_body (config : db_config) (connection_string query : string)
  : M W (list TextContent) :=
  with_connection connection_string
    (with_cursor
       (execute query;;
        if String.eqb (upper (strip query)) "SHOW TABLES" then
          execute catalog_query;;
          tables ← fetchall;
          let header := PyStr ("Tables_in_" +:+ fmt (cfg_database config)) in
          names ← for_each (fun table => lift (item0 table)) tables;
          result ← lift (join_values 0 (header :: names));
          mret (text_content (join NL result))
        else if startswith (upper (strip query)) "SELECT" then
          d ← read (cursor_description drv);
          columns ← lift (column_names d);
          rows ← fetchall;
          mret (text_content (tabular columns rows))
        else
          commit;;
          n ← rowcount;
          mret (text_content ("Query executed successfully. Rows affected: "
                              +:+ str_of_Z n)))).

(** The [except Exception as e:] clause of [call_tool]. *)
Definition call_tool_handler (query : string) (e : exn)
  : option (M W (list TextContent)) :=
  Some (log ERROR ("Error executing SQL '" +:+ query +:+ "': " +:+ exn_str e);;
        mret (text_content ("Error executing query: " +:+ exn_str e))).

Definition call_tool (name : string) (arguments : list (string * string))
  : M W (list TextContent) :=
  '(config, connection_string) ← get_db_config_m;
  log INFO ("Calling tool: " +:+ name +:+ " with arguments: " +:+ dict_repr arguments);;
  if negb (String.eqb name "execute_sql") then
    raise (ValueError ("Unknown tool: " +:+ name))
  else
    match dict_get arguments "query" with
    | Some query =>
        if negb (truthy query) then raise (ValueError "Query is required")
        else try_except (call_tool_body config connection_string query)
                        (call_tool_handler query)
    | None => raise (ValueError "Query is required")
    end.

End Server.

End Handlers.

Import Handlers.

(** ** A scripted driver

    A database server given by its answer to each statement, behind a driver
    that counts what is done to the connection. *)

Module Mock.

Record result_set := {
  rs_description : option (list column_desc);
  rs_rows : list row;
  rs_rowcount : Z
}.

Record db := {
  connect_error : option exn;           (* what [connect] raises, if anything *)
  server : list (string * (exn + result_set)); (* the server's answers *)
  current : result_set;                 (* the cursor's pending result *)
  opened : nat;                         (* connections opened *)
  closed : nat;                         (* releases, by [__exit__] or [close()] *)
  commits : nat                         (* transactions committed by [commit()] *)
}.

Definition no_result : result_set :=
  {| rs_description := None; rs_rows := []; rs_rowcount := (-1)%Z |}.

(** The server's answer to the statement [sql]. *)
Fixpoint answer (script : list (string * (exn + result_set))) (sql : string)
  : exn + result_set :=
  match script with
  | [] => inl (Error "42000 Incorrect syntax.")
  | (q, r) :: rest => if String.eqb q sql then r else answer rest sql
  end.

Definition set_current (rs : result_set) (w : db) : db :=
  {| connect_error := connect_error w; server := server w; current := rs;
     opened := opened w; closed := closed w; commits := commits w |}.

Definition driver : Driver db := {|
  connect := fun _ w =>
    match connect_error w with
    | Some e => (w, inl e)
    | None =>
        ({| connect_error := None; server := server w; current := no_result;
            opened := S (opened w); closed := closed w; commits := commits w |},
         inr tt)
    end;
  conn_cursor := fun w => (w, inr tt);
  conn_commit := fun w =>
    ({| connect_error := connect_error w; server := server w; current := current w;
        opened := opened w; closed := closed w; commits := S (commits w) |},
     inr tt);
  conn_exit := fun _ w =>
    ({| connect_error := connect_error w; server := server w; current := current w;
        opened := opened w; closed := S (closed w); commits := commits w |},
     inr tt);
  conn_close := fun w =>
    ({| connect_error := connect_error w; server := server w; current := current w;
        opened := opened w; closed := S (closed w); commits := commits w |},
     inr tt);
  cursor_execute := fun sql w =>
    match answer (server w) sql with
    | inl e => (w, inl e)
    | inr rs => (set_current rs w, inr tt)
    end;
  cursor_fetchall := fun w =>
    match rs_description (current w) with
    | Some _ => (w, inr (rs_rows (current w)))
    | None => (w, inl (Error "No results.  Previous SQL was not a query."))
    end;
  cursor_description := fun w => rs_description (current w);
  cursor_rowcount := fun w => rs_rowcount (current w);
  cursor_exit := fun _ w => (w, inr tt)
|}.

Definition col (n : string) : column_desc :=
  {| desc_name := n; desc_type_code := "str" |}.

Definition table_result (columns : list string) (rows : list row) : result_set :=
  {| rs_description := Some (map col columns); rs_rows := rows;
     rs_rowcount := (-1)%Z |}.

Definition affected (n : Z) : result_set :=
  {| rs_description := None; rs_rows := []; rs_rowcount := n |}.

(** A note whose text runs over two lines. *)
Definition two_lines : string := "call back" +:+ NL +:+ "on Monday".

(** The database [shop]: tables [Customers], [Orders] and [Notes]. With
    [mysql_shim] the server also accepts the statement SHOW TABLES. *)
Definition shop_server (mysql_shim : bool) : list (string * (exn + result_set)) :=
  [ (catalog_query,
     inr (table_result ["TABLE_NAME"]
            [[PyStr "Customers"]; [PyStr "Orders"]; [PyStr "Notes"]]));
    ("SELECT TOP 100 * FROM Customers",
     inr (table_result ["Id"; "Name"] [[PyInt 1; PyStr "Ann"]; [PyInt 2; PyStr "Bo"]]));
    ("SELECT TOP 100 * FROM Notes",
     inr (table_result ["Id"; "Body"]
            (repeat [PyInt 7; PyStr "ok"] 99 ++ [[PyInt 8; PyStr two_lines]])));
    ("select Name from Customers where Id = 2",
     inr (table_result ["Name"] [[PyStr "Bo"]]));
    ("UPDATE Customers SET Name='X' WHERE Id=1", inr (affected 1));
    ("DELETE FROM Orders WHERE Id=99", inr (affected 0));
    ("SHOW TABLES",
     if mysql_shim then inr (affected (-1))
     else inl (Error "42000 Could not find stored procedure 'SHOW'."));
    ("show tables",
     if mysql_shim then inr (affected (-1))
     else inl (Error "42000 Could not find stored procedure 'show'."));
    ("SELECT * FROM Missing", inl (Error "42S02 Invalid object name 'Missing'.")) ].

Definition shop (mysql_shim : bool) : db :=
  {| connect_error := None; server := shop_server mysql_shim; current := no_result;
     opened := 0; closed := 0; commits := 0 |}.

(** The same server when nobody answers at its address. *)
Definition unreachable : db :=
  {| connect_error := Some (Error "HYT00 Login timeout expired");
     server := shop_server false; current := no_result;
     opened := 0; closed := 0; commits := 0 |}.

Definition start (w : db) : state db := {| world := w; trace := [] |}.

End Mock.

(** ** Inputs and vocabulary of the statements *)

(** An environment with the three required settings, the password between
    single quotes. *)
Definition env_plain : environ :=
  <["MSSQL_USER" := "sa"]> (<["MSSQL_PASSWORD" := "'s3cr3t!pw'"]>
    (<["MSSQL_DATABASE" := "shop"]> ∅)).

(** An environment whose password consists of punctuation only. *)
Definition env_punct_password : environ :=
  <["MSSQL_USER" := "sa"]> (<["MSSQL_PASSWORD" := "!@#$%^&*"]>
    (<["MSSQL_DATABASE" := "shop"]> ∅)).

(** The environment of [env_plain] with the encryption flag set between
    quotes, as a shell may leave it. *)
Definition env_quoted_flag : environ := <["Encrypt" := "'no'"]> env_plain.

(** Total number of occurrences of [c] in the strings of [l]. *)
Definition count_all (c : ascii) (l : list string) : nat :=
  list_sum (map (count c) l).

(** The number of comma-separated fields of a line: [len(line.split(","))]. *)
Definition field_count (line : string) : nat := length (split "," line).

(** The number of newline-separated lines of a text: [len(text.split("\n"))]. *)
Definition line_count (text : string) : nat := length (split nl text).

(** Events of the branch that reports affected rows. *)
Definition is_commit (ev : event) : bool :=
  match ev with Commit | Rowcount => true | _ => false end.

(** Every run of [m] appends to the trace only events accepted by [ok]. *)
Definition emits_only {W A : Type} (ok : event -> bool) (m : M W A) : Prop :=
  forall s, exists evs, trace (fst (m s)) = trace s ++ evs /\ forallb ok evs = true.

(** No call of [commit()] and no read of [rowcount]. *)
Definition commit_free {W A : Type} (m : M W A) : Prop :=
  emits_only (fun ev => negb (is_commit ev)) m.

(** The state in which [call_tool] enters its [try] statement. *)
Definition call_tool_entry {W : Type} (logs : list log_record) (name : string)
    (arguments : list (string * string)) (s : state W) : state W :=
  {| world := world s;
     trace := (trace s ++ map Log logs)
              ++ [Log (INFO, "Calling tool: " +:+ name +:+ " with arguments: "
                             +:+ dict_repr arguments)] |}.

(** A run of the driver in which a connection is opened, a cursor created,
    [sql] executed, the result described by [descs] and fetched as [rows],
    and cursor and connection released, nothing raising. *)
Definition query_session {W : Type} (drv : Driver W) (cs sql : string) (w0 : W)
    (descs : list column_desc) (rows : list row) : Prop :=
  exists w1 w2 w3 w4 w5 w6,
    connect drv cs w0 = (w1, inr tt)
    /\ conn_cursor drv w1 = (w2, inr tt)
    /\ cursor_execute drv sql w2 = (w3, inr tt)
    /\ cursor_description drv w3 = Some descs
    /\ cursor_fetchall drv w3 = (w4, inr rows)
    /\ cursor_exit drv None w4 = (w5, inr tt)
    /\ conn_exit drv None w5 = (w6, inr tt).

(** An environment without MSSQL_DATABASE. *)
Definition env_no_database : environ :=
  <["MSSQL_USER" := "sa"]> (<["MSSQL_PASSWORD" := "s3cr3t!pw"]> ∅).

(** A driver installation that fails before it reaches the server, with an
    exception that is no [pyodbc.Error]. *)
Definition broken_installation : Mock.db :=
  {| Mock.connect_error := Some (OtherException "ODBC driver manager not found");
     Mock.server := []; Mock.current := Mock.no_result;
     Mock.opened := 0; Mock.closed := 0; Mock.commits := 0 |}.

(** The database [shop] on a server that also knows a statement copying
    the customers into a new table, and whose catalogue lists a table
    without a name. *)
Definition shop_with_backup : Mock.db :=
  {| Mock.connect_error := None;
     Mock.server :=
       ("SELECT * INTO Backup FROM Customers", inr (Mock.affected 2))
       :: (catalog_query,
           inr (Mock.table_result ["TABLE_NAME"] [[PyStr "Customers"]; [PyNone]]))
       :: Mock.shop_server false;
     Mock.current := Mock.no_result;
     Mock.opened := 0; Mock.closed := 0; Mock.commits := 0 |}.

(** The scripted driver on a link that breaks when the connection is
    released. *)
Definition driver_losing_link : Driver Mock.db :=
  {| connect := connect Mock.driver;
     conn_cursor := conn_cursor Mock.driver;
     conn_commit := conn_commit Mock.driver;
     conn_exit := fun _ w => (w, inl (Error "08S01 Communication link failure"));
     conn_close := conn_close Mock.driver;
     cursor_execute := cursor_execute Mock.driver;
     cursor_fetchall := cursor_fetchall Mock.driver;
     cursor_description := cursor_description Mock.driver;
     cursor_rowcount := cursor_rowcount Mock.driver;
     cursor_exit := cursor_exit Mock.driver |}.

(** A server on which the login may not read the catalogue. *)
Definition shop_without_catalog : Mock.db :=
  {| Mock.connect_error := None;
     Mock.server :=
       [(catalog_query, inl (Error "42000 The SELECT permission was denied."))];
     Mock.current := Mock.no_result;
     Mock.opened := 0; Mock.closed := 0; Mock.commits := 0 |}.

(** What [clean_env_var] makes of a value that is present. *)
Definition cleaned (value : string) : string :=
  if truthy value
     && ((startswith value SQ && endswith value SQ)
         || (startswith value DQ && endswith value DQ))
  then slice value (Some 1%Z) (Some (-1)%Z)
  else value.

(** A value that is empty once cleaned: nothing, one quote character, or an
    empty pair of quotes. *)
Definition blank_setting (v : string) : bool :=
  existsb (String.eqb v) [EmptyString; SQ; SQ +:+ SQ; DQ; DQ +:+ DQ].

(** The setting [k] is given in the environment with a value that is not
    blank. *)
Definition required_present (env : environ) (k : string) : bool :=
  match env !! k with
  | Some v => negb (blank_setting v)
  | None => false
  end.

(** The texts that [get_db_config] writes into the connection string, in
    order. *)
Definition connection_values (env : environ) : list string :=
  [fmt (clean_env_var env "MSSQL_DRIVER" (Some "ODBC Driver 18 for SQL Server"));
   fmt (clean_env_var env "MSSQL_HOST" (Some "localhost"));
   fmt (clean_env_var env "MSSQL_PORT" (Some "1433"));
   fmt (clean_env_var env "MSSQL_DATABASE" None);
   fmt (clean_env_var env "MSSQL_USER" None);
   fmt (clean_env_var env "MSSQL_PASSWORD" None);
   fmt (getenv env "TrustServerCertificate" (Some "yes"));
   fmt (getenv env "Encrypt" (Some "yes"));
   fmt (getenv env "ConnectionTimeout" (Some "60"));
   fmt (getenv env "LoginTimeout" (Some "60"))].

(** The member [key] of a JSON object. *)
Fixpoint json_member (fields : list (string * json)) (key : string) : option json :=
  match fields with
  | [] => None
  | (k, v) :: rest => if String.eqb k key then Some v else json_member rest key
  end.

(** The names an input schema lists under [required]. *)
Definition required_keys (schema : json) : list string :=
  match schema with
  | JObject fields =>
      match json_member fields "required" with
      | Some (JArray items) =>
          flat_map (fun j => match j with JString s => [s] | _ => [] end) items
      | _ => []
      end
  | _ => []
  end.

(** The state a handler is in once [get_db_config] has written [logs]. *)
Definition after_config {W : Type} (logs : list log_record) (s : state W) : state W :=
  {| world := world s; trace := trace s ++ map Log logs |}.

(** Events of the driver, as opposed to log lines. *)
Definition is_driver_event (ev : event) : bool :=
  match ev with Log _ => false | _ => true end.

(** Events about the connection and its cursor. *)
Definition is_scope_event (ev : event) : bool :=
  match ev with Opened | ConnExit | Cursor | CursorExit => true | _ => false end.

(** What a reader of the text does: lines, and fields within each line. *)
Definition parse_tabular (text : string) : list (list string) :=
  map (split ",") (split nl text).

(** The connection and cursor events of a run, in the orders the [with]
    statements allow: nothing opened; a connection opened and left; a
    cursor asked for in between; a cursor asked for and left in between. *)
Definition well_nested (evs : list event) : Prop :=
  let l := List.filter is_scope_event evs in
  l = [] \/ l = [Opened; ConnExit] \/ l = [Opened; Cursor; ConnExit]
  \/ l = [Opened; Cursor; CursorExit; ConnExit].

(** Every run of [m] appends events whose connection and cursor events
    satisfy [P]. *)
Definition shape {W A : Type} (P : list event -> Prop) (m : M W A) : Prop :=
  forall s, exists evs, trace (fst (m s)) = trace s ++ evs
                        /\ P (List.filter is_scope_event evs).

(** No connection or cursor event. *)
Definition scope_free {W A : Type} (m : M W A) : Prop :=
  emits_only (fun ev => negb (is_scope_event ev)) m.

(** What a cursor's [with] statement contributes. *)
Definition cursor_shape (l : list event) : Prop :=
  l = [] \/ l = [Cursor] \/ l = [Cursor; CursorExit].

(** What a connection's [with] statement contributes. *)
Definition connection_shape (l : list event) : Prop :=
  l = [] \/ l = [Opened; ConnExit] \/ l = [Opened; Cursor; ConnExit]
  \/ l = [Opened; Cursor; CursorExit; ConnExit].

(** The statements sent to the server. *)
Definition is_execute (ev : event) : bool :=
  match ev with Execute _ => true | _ => false end.

(** Every run of [m] appends events of which those selected by [sel]
    satisfy [P]. *)
Definition observes {W A : Type} (sel : event -> bool) (P : list event -> Prop)
    (m : M W A) : Prop :=
  forall s, exists evs, trace (fst (m s)) = trace s ++ evs
                        /\ P (List.filter sel evs).

(** No run of [m] appends an event selected by [sel]. *)
Definition unobserved {W A : Type} (sel : event -> bool) (m : M W A) : Prop :=
  emits_only (fun ev => negb (sel ev)) m.

(** The statements of the [with] body of [call_tool]. *)
Definition call_tool_sends (q : string) (l : list event) : Prop :=
  l = []
  \/ l = [Execute q]
  \/ (l = [Execute q; Execute catalog_query]
      /\ (isascii q = true -> upper (strip q) = "SHOW TABLES")).

(** What the handlers do to connections, as the driver sees it: a
    connection handed out by [connect], a call of a connection's
    [__exit__], a call of a connection's [close()]. *)
Inductive conn_call : Type := DidConnect | DidExit | DidClose.

(** A call that is passed on to the driver and not recorded. *)
Definition pass {W L A : Type} (f : W -> W * A) (wl : W * L) : (W * L) * A :=
  let '(w', r) := f (fst wl) in ((w', snd wl), r).

(** The driver [drv] with a record of calls beside its world: every call
    goes to [drv] unchanged and answers what [drv] answers; [connect] is
    recorded when it returns a connection, the connection's [__exit__] and
    [close()] are recorded whatever they answer. *)
Definition counting {W : Type} (drv : Driver W) : Driver (W * list conn_call) :=
  {| connect := fun cs wl =>
       match connect drv cs (fst wl) with
       | (w', inr u) => ((w', snd wl ++ [DidConnect]), inr u)
       | (w', inl e) => ((w', snd wl), inl e)
       end;
     conn_cursor := pass (conn_cursor drv);
     conn_commit := pass (conn_commit drv);
     conn_exit := fun exc wl =>
       let '(w', r) := conn_exit drv exc (fst wl) in ((w', snd wl ++ [DidExit]), r);
     conn_close := fun wl =>
       let '(w', r) := conn_close drv (fst wl) in ((w', snd wl ++ [DidClose]), r);
     cursor_execute := fun sql => pass (cursor_execute drv sql);
     cursor_fetchall := pass (cursor_fetchall drv);
     cursor_description := fun wl => cursor_description drv (fst wl);
     cursor_rowcount := fun wl => cursor_rowcount drv (fst wl);
     cursor_exit := fun exc => pass (cursor_exit drv exc) |}.

(** The state [s] with an empty record of calls. *)
Definition counted {W : Type} (s : state W) : state (W * list conn_call) :=
  {| world := (world s, []); trace := trace s |}.

(** The calls recorded by the end of a run. *)
Definition calls_of {W A : Type} (r : state (W * list conn_call) * A)
  : list conn_call :=
  snd (world (fst r)).

(** No connection was handed out, or one was and its [__exit__] was called
    once, after that; [close()] was not called. *)
Definition left_once (calls : list conn_call) : Prop :=
  calls = [] \/ calls = [DidConnect; DidExit].

(** The run [r'] against [counting drv] is the run [r] against [drv]: the
    same trace, the same world of [drv], the same outcome. *)
Definition same_run {W A : Type} (r : state W * (exn + A))
    (r' : state (W * list conn_call) * (exn + A)) : Prop :=
  trace (fst r') = trace (fst r)
  /\ fst (world (fst r')) = world (fst r)
  /\ snd r' = snd r.

(** [m'] against a recording driver does what [m] does against the
    driver. *)
Definition mirrors {W A : Type} (m : M W A) (m' : M (W * list conn_call) A) : Prop :=
  forall (s : state W) (l : list conn_call),
    same_run (m s) (m' {| world := (world s, l); trace := trace s |}).

(** A run of [m] records no call. *)
Definition neutral {W A : Type} (m : M (W * list conn_call) A) : Prop :=
  forall s, calls_of (m s) = snd (world s).

(** A run of [m] records nothing, or one connection and its one
    [__exit__]. *)
Definition settled {W A : Type} (m : M (W * list conn_call) A) : Prop :=
  forall s, exists calls,
    calls_of (m s) = snd (world s) ++ calls /\ left_once calls.

(** ** The operations on small inputs *)

Example slice_inner : slice "'abc'" (Some 1%Z) (Some (-1)%Z) = "abc".
Proof. reflexivity. Qed.
Example slice_tail : slice "secret" (Some (-2)%Z) None = "et".
Proof. reflexivity. Qed.
Example strip_upper : upper (strip "  select 1 ") = "SELECT 1".
Proof. reflexivity. Qed.
Example split_uri : split "/" "Customers/data" = ["Customers"; "data"].
Proof. reflexivity. Qed.
Example str_neg : str_of_Z (-12) = "-12" /\ str_of_Z 0 = "0".
Proof. split; reflexivity. Qed.
Example get_db_config_plain :
  snd (get_db_config env_plain)
  = inr ({| cfg_driver := Some "ODBC Driver 18 for SQL Server";
            cfg_server := "localhost:1433";
            cfg_user := Some "sa";
            cfg_database := Some "shop";
            cfg_password := "********" |},
         "Driver={ODBC Driver 18 for SQL Server};Server=localhost,1433;Database=shop;UID=sa;PWD=s3cr3t!pw;TrustServerCertificate=yes;Encrypt=yes;Connection Timeout=60;Login Timeout=60;MARS_Connection=yes").
Proof. vm_compute. reflexivity. Qed.

(** ** Facts about the string operations *)

Section StringFacts.

Lemma append_nil_l (s : string) : EmptyString +:+ s = s.
Proof. reflexivity. Qed.

Lemma append_cons (a : ascii) (s t : string) :
  String a s +:+ t = String a (s +:+ t).
Proof. reflexivity. Qed.

Lemma append_EmptyString_r (s : string) : s +:+ EmptyString = s.
Proof.
  induction s as [|a s IH]; [reflexivity|].
  now rewrite append_cons, IH.
Qed.

Lemma append_assoc (a b c : string) : (a +:+ b) +:+ c = a +:+ (b +:+ c).
Proof.
  induction a as [|x a IH]; [reflexivity|].
  now rewrite !append_cons, IH.
Qed.

Lemma count_app (c : ascii) (s1 s2 : string) :
  count c (s1 +:+ s2) = count c s1 + count c s2.
Proof.
  induction s1 as [|a s1 IH]; [reflexivity|].
  rewrite append_cons. simpl. rewrite IH. lia.
Qed.

Lemma split_not_nil (c : ascii) (s : string) : split c s <> [].
Proof.
  induction s as [|a s IH]; simpl; [discriminate|].
  destruct (Ascii.eqb a c); [discriminate|].
  destruct (split c s); [contradiction | discriminate].
Qed.

(** A string has one piece more than it has separators. *)
Lemma length_split (c : ascii) (s : string) :
  length (split c s) = S (count c s).
Proof.
  induction s as [|a s IH]; simpl; [reflexivity|].
  destruct (Ascii.eqb a c); simpl; [now rewrite IH|].
  destruct (split c s) eqn:E; simpl in *; [discriminate | exact IH].
Qed.

(** The first piece of [s1 + c + s2] is [s1] when [c] does not occur in it. *)
Lemma split_app_sep (c : ascii) (s1 s2 : string) :
  count c s1 = 0 -> split c (s1 +:+ String c s2) = s1 :: split c s2.
Proof.
  induction s1 as [|a s1 IH]; intros H.
  - rewrite append_nil_l. simpl. now rewrite Ascii.eqb_refl.
  - rewrite append_cons. simpl in *.
    destruct (Ascii.eqb a c); [discriminate|].
    rewrite IH by exact H. reflexivity.
Qed.

Lemma split_no_sep (c : ascii) (s : string) : count c s = 0 -> split c s = [s].
Proof.
  induction s as [|a s IH]; simpl; intros H; [reflexivity|].
  destruct (Ascii.eqb a c); [discriminate|].
  rewrite IH by exact H. reflexivity.
Qed.

Lemma join_cons2 (sep x y : string) (l : list string) :
  join sep (x :: y :: l) = x +:+ sep +:+ join sep (y :: l).
Proof. reflexivity. Qed.

(** Joining with a one-character separator [d] adds one [d] between any two
    neighbours and nothing else. *)
Lemma count_join (c d : ascii) (l : list string) :
  count c (join (String d EmptyString) l)
  = count_all c l + (if Ascii.eqb d c then pred (length l) else 0).
Proof.
  unfold count_all.
  induction l as [|x l IH].
  - simpl. destruct (Ascii.eqb d c); reflexivity.
  - destruct l as [|y l].
    + simpl. destruct (Ascii.eqb d c); lia.
    + rewrite join_cons2, !count_app, IH.
      simpl. destruct (Ascii.eqb d c); simpl; lia.
Qed.

Lemma substring_all (s : string) : String.substring 0 (String.length s) s = s.
Proof. induction s as [|a s IH]; simpl; [reflexivity | now rewrite IH]. Qed.

Lemma prefix_app (p s : string) : String.prefix p (p +:+ s) = true.
Proof.
  induction p as [|a p IH]; [now destruct s|].
  rewrite append_cons. simpl.
  destruct (ascii_dec a a); [exact IH | contradiction].
Qed.

End StringFacts.

(** ** Configuration resolution: what reaches the log and the connection string *)

Section ConfigFacts.

Lemma substring_prefix (v t : string) :
  String.substring 0 (String.length v) (v +:+ t) = v.
Proof.
  induction v as [|a v IH]; [now destruct t|].
  rewrite append_cons. simpl. now rewrite IH.
Qed.

Lemma substring_skip (v t : string) (k : nat) :
  String.substring (String.length v) k (v +:+ t) = String.substring 0 k t.
Proof.
  induction v as [|a v IH]; [reflexivity|].
  rewrite append_cons. simpl. exact IH.
Qed.

Lemma length_append (a b : string) :
  String.length (a +:+ b) = String.length a + String.length b.
Proof.
  induction a as [|x a IH]; [reflexivity|].
  rewrite append_cons. simpl. now rewrite IH.
Qed.

(** A value between two quote characters [q] loses exactly that pair. *)
Lemma slice_inner_quoted (q : ascii) (v : string) :
  slice (String q (v +:+ String q EmptyString)) (Some 1%Z) (Some (-1)%Z) = v.
Proof.
  unfold slice, len, clamp. simpl String.length.
  rewrite length_append. simpl String.length.
  replace (Z.to_nat _) with 1 at 1.
  2:{ destruct (1 <? 0)%Z eqn:E; lia. }
  match goal with |- String.substring 1 ?k _ = _ =>
    replace k with (String.length v) end.
  2:{ destruct (1 <? 0)%Z eqn:E1; destruct (-1 <? 0)%Z eqn:E2; lia. }
  simpl. apply substring_prefix.
Qed.

Lemma endswith_quoted (q : ascii) (v : string) :
  endswith (String q (v +:+ String q EmptyString)) (String q EmptyString) = true.
Proof.
  unfold endswith. simpl String.length. rewrite length_append. simpl String.length.
  replace (S (String.length v + 1) - 1) with (S (String.length v)) by lia.
  simpl. rewrite substring_skip. simpl.
  rewrite Ascii.eqb_refl. reflexivity.
Qed.

(** The six settings read through [clean_env_var] lose one pair of single
    or double quotes around their value. *)
Lemma clean_env_var_quoted (env : environ) (k v : string) (d : option string) (q : ascii) :
  q = squote \/ q = dquote ->
  env !! k = Some (String q (v +:+ String q EmptyString)) ->
  clean_env_var env k d = Some v.
Proof.
  intros Hq Hk. unfold clean_env_var, getenv. rewrite Hk.
  cbn [truthy andb].
  assert (Hs : startswith (String q (v +:+ String q EmptyString)) (String q EmptyString) = true).
  { unfold startswith. simpl. destruct (ascii_dec q q); [|contradiction].
    now destruct (v +:+ String q EmptyString). }
  pose proof (endswith_quoted q v) as He.
  destruct Hq as [-> | ->]; unfold SQ, DQ; rewrite Hs, He; cbn [andb orb];
    rewrite ?orb_true_r; now rewrite slice_inner_quoted.
Qed.

(** Whatever the environment holds, the configuration object carries the
    placeholder in the place of the password. *)
Lemma config_password_redacted (env : environ) cfg cs :
  snd (get_db_config env) = inr (cfg, cs) -> cfg_password cfg = "********".
Proof.
  unfold get_db_config.
  destruct (negb _); simpl; intros H; [discriminate|].
  now inversion H.
Qed.

End ConfigFacts.

(** C8, at the failing input: with the password [!@#$%^&*] the debugging line
    that shows the non-alphanumeric characters of the password shows all of
    it, so the password stands in the log in full, while the configuration
    object holds only the placeholder. *)
Theorem punctuation_password_is_logged_in_full :
  In (INFO, "Debug - Password format: begins with '!@', ends with '&*', contains special chars: '!@#$%^&*'")
     (fst (get_db_config env_punct_password))
  /\ existsb (fun r => contains (snd r) "!@#$%^&*") (fst (get_db_config env_punct_password)) = true
  /\ exists cfg cs, snd (get_db_config env_punct_password) = inr (cfg, cs)
                    /\ cfg_password cfg = "********".
Proof.
  split; [|split].
  - vm_compute. right. left. reflexivity.
  - vm_compute. reflexivity.
  - eexists _, _. split; vm_compute; reflexivity.
Qed.

(** C9, at the failing input: the quotes around the password are removed, the
    quotes around the encryption flag reach the connection string. *)
Theorem quoted_encrypt_flag_is_not_cleaned :
  env_quoted_flag !! "MSSQL_PASSWORD" = Some "'s3cr3t!pw'"
  /\ env_quoted_flag !! "Encrypt" = Some "'no'"
  /\ exists cfg, snd (get_db_config env_quoted_flag)
     = inr (cfg, "Driver={ODBC Driver 18 for SQL Server};Server=localhost,1433;Database=shop;UID=sa;PWD=s3cr3t!pw;TrustServerCertificate=yes;Encrypt='no';Connection Timeout=60;Login Timeout=60;MARS_Connection=yes").
Proof.
  split; [|split]; [vm_compute; reflexivity ..|].
  eexists. vm_compute. reflexivity.
Qed.

(** ** Serialization of rows *)

Section Serialization.

Lemma length_map_py_str (r : row) : length (map py_str r) = length r.
Proof. apply length_map. Qed.

(** A row has one field per cell and one more for every comma inside the
    text of a cell. *)
Lemma field_count_serialize_row (r : row) :
  r <> [] ->
  field_count (serialize_row r) = length r + count_all "," (map py_str r).
Proof.
  intros Hr. unfold field_count, serialize_row.
  rewrite length_split, count_join, Ascii.eqb_refl, length_map_py_str.
  destruct r; [contradiction | simpl; lia].
Qed.

(** A row is split over one more line for every newline inside the text
    of a cell. *)
Lemma line_count_serialize_row (r : row) :
  line_count (serialize_row r) = 1 + count_all nl (map py_str r).
Proof.
  unfold line_count, serialize_row.
  rewrite length_split, count_join.
  assert (E : Ascii.eqb ","%char nl = false) by reflexivity.
  rewrite E. lia.
Qed.

Lemma count_all_zero (c : ascii) (l : list string) :
  Forall (fun s => count c s = 0) l -> count_all c l = 0.
Proof.
  unfold count_all. induction 1 as [|x l Hx _ IH]; simpl; [reflexivity | lia].
Qed.

Lemma count_all_pos (c : ascii) (l : list string) :
  Exists (fun s => 0 < count c s) l -> 0 < count_all c l.
Proof.
  unfold count_all. induction 1 as [x l Hx | x l _ IH]; simpl; lia.
Qed.

Lemma count_all_app (c : ascii) (l1 l2 : list string) :
  count_all c (l1 ++ l2) = count_all c l1 + count_all c l2.
Proof. unfold count_all. now rewrite map_app, list_sum_app. Qed.

End Serialization.

(** C10 as stated fails: a single-column row whose cell holds a newline is
    serialized to a text with one comma-separated field, as many as the
    header has columns; so has each of the two lines it is printed on. *)
Lemma newline_cell_keeps_field_count :
  let columns := ["Body"] in
  let r := [PyStr Mock.two_lines] in
  0 < count nl (py_str (PyStr Mock.two_lines))
  /\ length r = length columns
  /\ field_count (serialize_row r) = length columns
  /\ field_count (join "," columns) = length columns
  /\ map field_count (split nl (tabular columns [r])) = [1; 1; 1].
Proof. vm_compute. repeat split; lia. Qed.

(** C10, amended: a row is the comma-joined texts of its cells, nothing
    quoted or escaped. For a row with as many cells as the header has
    columns, a comma in the text of a cell makes the row's field count exceed
    the number of columns; without a comma in any cell the field count is the
    number of columns, newlines or not; every newline in a cell adds a line
    to the row. *)
Theorem comma_in_cell_adds_fields (columns : list string) (r : row) :
  length r = length columns ->
  serialize_row r = join "," (map py_str r)
  /\ (Exists (fun v => 0 < count "," (py_str v)) r ->
      length columns < field_count (serialize_row r))
  /\ (r <> [] -> Forall (fun v => count "," (py_str v) = 0) r ->
      field_count (serialize_row r) = length columns)
  /\ line_count (serialize_row r) = 1 + count_all nl (map py_str r).
Proof.
  intros Hlen. split; [reflexivity|]. split; [|split].
  - intros Hex.
    assert (Hr : r <> []) by (intros ->; inversion Hex).
    rewrite field_count_serialize_row by exact Hr.
    assert (0 < count_all "," (map py_str r)).
    { apply count_all_pos. apply List.Exists_exists in Hex as (v & Hin & Hv).
      apply List.Exists_exists. exists (py_str v). split; [now apply in_map | exact Hv]. }
    lia.
  - intros Hr Hall.
    rewrite field_count_serialize_row by exact Hr.
    rewrite count_all_zero; [lia|].
    apply List.Forall_forall. intros s Hs. apply in_map_iff in Hs as (v & <- & Hin).
    rewrite List.Forall_forall in Hall. now apply Hall.
  - apply line_count_serialize_row.
Qed.

Lemma comma_in_cell_adds_fields_witness :
  length ["Id"; "Body"] < field_count (serialize_row [PyInt 8; PyStr "Smith, Ann"]).
Proof.
  apply (comma_in_cell_adds_fields ["Id"; "Body"] [PyInt 8; PyStr "Smith, Ann"]).
  - reflexivity.
  - right. left. vm_compute. lia.
Defined.

(** ** What a handler emits *)

Section Emits.
Context {W : Type}.

Variable ok : event -> bool.

Lemma emits_nothing {A} (m : M W A) :
  (forall s, trace (fst (m s)) = trace s) -> emits_only ok m.
Proof. intros H s. exists []. now rewrite H, app_nil_r. Qed.

Lemma emits_ret {A} (a : A) : emits_only ok (mret a : M W A).
Proof. now apply emits_nothing. Qed.

Lemma emits_raise {A} (e : exn) : emits_only ok (raise e : M W A).
Proof. now apply emits_nothing. Qed.

Lemma emits_lift {A} (r : exn + A) : emits_only ok (lift r : M W A).
Proof. now apply emits_nothing. Qed.

Lemma emits_read {A} (f : W -> A) : emits_only ok (read f).
Proof. now apply emits_nothing. Qed.

Lemma emits_call {A} (f : W -> W * (exn + A)) : emits_only ok (call f).
Proof.
  apply emits_nothing. intros s. unfold call. now destruct (f (world s)).
Qed.

Lemma emits_emit (ev : event) : ok ev = true -> emits_only ok (emit ev : M W unit).
Proof. intros H s. exists [ev]. simpl. now rewrite H. Qed.

Lemma emits_log (l : level) (msg : string) :
  ok (Log (l, msg)) = true -> emits_only ok (log l msg : M W unit).
Proof. apply emits_emit. Qed.

Lemma emits_emit_all (evs : list event) :
  forallb ok evs = true -> emits_only ok (emit_all evs : M W unit).
Proof. intros H s. now exists evs. Qed.

Lemma emits_bind {A B} (m : M W A) (f : A -> M W B) :
  emits_only ok m -> (forall a, emits_only ok (f a)) -> emits_only ok (m ≫= f).
Proof.
  intros Hm Hf s. unfold mbind, M_bind.
  destruct (Hm s) as (evs1 & E1 & O1).
  destruct (m s) as [s1 [e|a]]; simpl in *.
  - now exists evs1.
  - destruct (Hf a s1) as (evs2 & E2 & O2).
    exists (evs1 ++ evs2). rewrite E2, E1, app_assoc, forallb_app, O1, O2.
    now split.
Qed.

Lemma emits_try_except {A} (m : M W A) (h : exn -> option (M W A)) :
  emits_only ok m -> (forall e k, h e = Some k -> emits_only ok k) ->
  emits_only ok (try_except m h).
Proof.
  intros Hm Hh s. unfold try_except.
  destruct (Hm s) as (evs1 & E1 & O1).
  destruct (m s) as [s1 [e|a]]; simpl in *; [|now exists evs1].
  destruct (h e) as [k|] eqn:Ek; [|now exists evs1].
  destruct (Hh e k Ek s1) as (evs2 & E2 & O2).
  exists (evs1 ++ evs2). rewrite E2, E1, app_assoc, forallb_app, O1, O2.
  now split.
Qed.

Lemma emits_with_exit {A} (exit_ : option exn -> M W unit) (body : M W A) :
  (forall exc, emits_only ok (exit_ exc)) -> emits_only ok body ->
  emits_only ok (with_exit exit_ body).
Proof.
  intros Hx Hb s. unfold with_exit.
  destruct (Hb s) as (evs1 & E1 & O1).
  destruct (body s) as [s1 [e|a]]; simpl in *.
  - destruct (Hx (Some e) s1) as (evs2 & E2 & O2).
    exists (evs1 ++ evs2).
    destruct (exit_ (Some e) s1) as [s2 [e'|[]]]; simpl in *;
      rewrite E2, E1, app_assoc, forallb_app, O1, O2; now split.
  - destruct (Hx None s1) as (evs2 & E2 & O2).
    exists (evs1 ++ evs2).
    destruct (exit_ None s1) as [s2 [e'|[]]]; simpl in *;
      rewrite E2, E1, app_assoc, forallb_app, O1, O2; now split.
Qed.

Lemma emits_for_each {A B} (f : A -> M W B) (l : list A) :
  (forall a, emits_only ok (f a)) -> emits_only ok (for_each f l).
Proof.
  intros Hf. induction l as [|x l IH]; simpl.
  - apply emits_ret.
  - apply emits_bind; [apply Hf|]. intros y.
    apply emits_bind; [exact IH|]. intros ys. apply emits_ret.
Qed.

Lemma emits_if {A} (b : bool) (m1 m2 : M W A) :
  emits_only ok m1 -> emits_only ok m2 -> emits_only ok (if b then m1 else m2).
Proof. now destruct b. Qed.

End Emits.

Create HintDb emits.
#[export] Hint Resolve emits_ret emits_raise emits_lift emits_read emits_call
  emits_log emits_emit emits_emit_all emits_bind emits_try_except emits_with_exit
  emits_for_each emits_if : emits.

(** Stepping through the shape of a handler. *)
Ltac emits_step :=
  lazymatch goal with
  | |- emits_only _ (mbind _ _) => apply emits_bind; [|intros ?]
  | |- emits_only _ (mret _) => apply emits_ret
  | |- emits_only _ (raise _) => apply emits_raise
  | |- emits_only _ (lift _) => apply emits_lift
  | |- emits_only _ (read _) => apply emits_read
  | |- emits_only _ (call _) => apply emits_call
  | |- emits_only _ (log _ _) => apply emits_log; reflexivity
  | |- emits_only _ (emit _) => apply emits_emit; reflexivity
  | |- emits_only _ (with_exit _ _) => apply emits_with_exit; [intros ?|]
  | |- emits_only _ (for_each _ _) => apply emits_for_each; intros ?
  | |- emits_only _ (if ?b then _ else _) => destruct b
  | |- emits_only _ (match ?x with _ => _ end) => destruct x
  end.

Ltac emits := repeat emits_step.

Section HandlerTraces.
Context {W : Type} (drv : Driver W) (env : environ).

Lemma forallb_logs (ok : event -> bool) (logs : list log_record) :
  (forall r, ok (Log r) = true) -> forallb ok (map Log logs) = true.
Proof.
  intros H. induction logs as [|r logs IH]; simpl; [reflexivity|].
  now rewrite H, IH.
Qed.

Lemma emits_get_db_config (ok : event -> bool) :
  (forall r, ok (Log r) = true) -> emits_only ok (get_db_config_m (W := W) env).
Proof.
  intros H. unfold get_db_config_m. emits.
  apply emits_emit_all, forallb_logs, H.
Qed.

Lemma commit_free_not_in (evs : list event) :
  forallb (fun ev => negb (is_commit ev)) evs = true ->
  ~ In Commit evs /\ ~ In Rowcount evs.
Proof.
  intros H. rewrite forallb_forall in H.
  split; intros Hin; specialize (H _ Hin); discriminate.
Qed.

Lemma emits_with_cursor (ok : event -> bool) {A} (body : M W A) :
  ok Cursor = true -> ok CursorExit = true ->
  emits_only ok body -> emits_only ok (with_cursor drv body).
Proof.
  intros H1 H2 Hb. unfold with_cursor.
  apply emits_bind; [now apply emits_emit | intros _].
  apply emits_bind; [apply emits_call | intros _].
  apply emits_with_exit; [|exact Hb].
  intros exc. apply emits_bind; [now apply emits_emit | intros _; apply emits_call].
Qed.

Lemma emits_with_connection (ok : event -> bool) {A} (cs : string) (body : M W A) :
  ok (Connect cs) = true -> ok Opened = true -> ok ConnExit = true ->
  emits_only ok body -> emits_only ok (with_connection drv cs body).
Proof.
  intros H1 H2 H3 Hb. unfold with_connection.
  apply emits_bind; [now apply emits_emit | intros _].
  apply emits_bind; [apply emits_call | intros _].
  apply emits_bind; [now apply emits_emit | intros _].
  apply emits_with_exit; [|exact Hb].
  intros exc. apply emits_bind; [now apply emits_emit | intros _; apply emits_call].
Qed.

Lemma emits_execute (ok : event -> bool) (sql : string) :
  ok (Execute sql) = true -> emits_only ok (execute drv sql).
Proof. intros H. unfold execute. emits. now apply emits_emit. Qed.

Lemma emits_fetchall (ok : event -> bool) :
  ok Fetchall = true -> emits_only ok (fetchall drv).
Proof. intros H. unfold fetchall. emits. now apply emits_emit. Qed.

End HandlerTraces.

(** ** C1: what happens to the connections *)

Section Recording.
Context {W : Type}.

Local Abbreviation WL := (W * list conn_call)%type.

Lemma neutral_nothing {A} (m : M WL A) :
  (forall s, world (fst (m s)) = world s) -> neutral m.
Proof. intros H s. unfold calls_of. now rewrite H. Qed.

Lemma neutral_ret {A} (a : A) : neutral (mret a : M WL A).
Proof. now apply neutral_nothing. Qed.

Lemma neutral_raise {A} (e : exn) : neutral (raise e : M WL A).
Proof. now apply neutral_nothing. Qed.

Lemma neutral_lift {A} (r : exn + A) : neutral (lift r : M WL A).
Proof. now apply neutral_nothing. Qed.

Lemma neutral_read {A} (f : WL -> A) : neutral (read f).
Proof. now apply neutral_nothing. Qed.

Lemma neutral_emit (ev : event) : neutral (emit ev : M WL unit).
Proof. now apply neutral_nothing. Qed.

Lemma neutral_log (l : level) (msg : string) : neutral (log l msg : M WL unit).
Proof. now apply neutral_nothing. Qed.

Lemma neutral_emit_all (evs : list event) : neutral (emit_all evs : M WL unit).
Proof. now apply neutral_nothing. Qed.

Lemma neutral_call_pass {A} (f : W -> W * (exn + A)) :
  neutral (call (pass (L := list conn_call) f)).
Proof.
  intros s. unfold calls_of, call, pass. now destruct (f (fst (world s))).
Qed.

Lemma neutral_bind {A B} (m : M WL A) (f : A -> M WL B) :
  neutral m -> (forall a, neutral (f a)) -> neutral (m ≫= f).
Proof.
  intros Hm Hf s. unfold mbind, M_bind. specialize (Hm s). unfold calls_of in *.
  destruct (m s) as [s1 [e|a]]; simpl in *; [exact Hm|].
  pose proof (Hf a s1) as H. unfold calls_of in H. congruence.
Qed.

Lemma neutral_try_except {A} (m : M WL A) (h : exn -> option (M WL A)) :
  neutral m -> (forall e k, h e = Some k -> neutral k) -> neutral (try_except m h).
Proof.
  intros Hm Hh s. unfold try_except. specialize (Hm s). unfold calls_of in *.
  destruct (m s) as [s1 [e|a]]; simpl in *; [|exact Hm].
  destruct (h e) as [k|] eqn:Ek; [|exact Hm].
  pose proof (Hh e k Ek s1) as H. unfold calls_of in H. congruence.
Qed.

Lemma neutral_with_exit {A} (exit_ : option exn -> M WL unit) (body : M WL A) :
  (forall exc, neutral (exit_ exc)) -> neutral body -> neutral (with_exit exit_ body).
Proof.
  intros Hx Hb s. unfold with_exit. specialize (Hb s). unfold calls_of in *.
  destruct (body s) as [s1 [e|a]]; simpl in *.
  - specialize (Hx (Some e) s1). unfold calls_of in Hx.
    destruct (exit_ (Some e) s1) as [s2 [e'|[]]]; simpl in *; congruence.
  - specialize (Hx None s1). unfold calls_of in Hx.
    destruct (exit_ None s1) as [s2 [e'|[]]]; simpl in *; congruence.
Qed.

Lemma neutral_for_each {A B} (f : A -> M WL B) (l : list A) :
  (forall a, neutral (f a)) -> neutral (for_each f l).
Proof.
  intros Hf. induction l as [|x l IH]; simpl.
  - apply neutral_ret.
  - apply neutral_bind; [apply Hf|]. intros y.
    apply neutral_bind; [exact IH|]. intros ys. apply neutral_ret.
Qed.

Lemma settled_neutral {A} (m : M WL A) : neutral m -> settled m.
Proof.
  intros H s. exists []. rewrite H, app_nil_r. split; [reflexivity | now left].
Qed.

Lemma settled_bind_neutral {A B} (m : M WL A) (f : A -> M WL B) :
  neutral m -> (forall a, settled (f a)) -> settled (m ≫= f).
Proof.
  intros Hm Hf s. unfold mbind, M_bind. specialize (Hm s). unfold calls_of in *.
  destruct (m s) as [s1 [e|a]]; simpl in *.
  - exists []. rewrite Hm, app_nil_r. split; [reflexivity | now left].
  - destruct (Hf a s1) as (calls & E & O). unfold calls_of in E.
    exists calls. now rewrite E, Hm.
Qed.

Lemma settled_try_except {A} (m : M WL A) (h : exn -> option (M WL A)) :
  settled m -> (forall e k, h e = Some k -> neutral k) -> settled (try_except m h).
Proof.
  intros Hm Hh s. unfold try_except.
  destruct (Hm s) as (calls & E & O). unfold calls_of in *.
  destruct (m s) as [s1 [e|a]]; simpl in *; [|now exists calls].
  destruct (h e) as [k|] eqn:Ek; [|now exists calls].
  exists calls. specialize (Hh e k Ek s1). unfold calls_of in Hh.
  now rewrite Hh, E.
Qed.

(** The [with] statement of a connection: when [connect] raises nothing is
    recorded; when it returns, the body runs and [__exit__] is called once,
    whether the body returns or raises and whatever [__exit__] answers. *)
Lemma settled_with_connection {A} (drv : Driver W) (cs : string) (body : M WL A) :
  neutral body -> settled (with_connection (counting drv) cs body).
Proof.
  intros Hb s. unfold with_connection, mbind, M_bind, emit, call, calls_of.
  cbn [counting connect conn_exit world trace fst snd].
  destruct (connect drv cs (fst (world s))) as [w1 [e|[]]]; cbn [fst snd world trace].
  - exists []. rewrite app_nil_r. split; [reflexivity | now left].
  - exists [DidConnect; DidExit]. split; [|now right].
    unfold with_exit.
    match goal with |- context [body ?s1] =>
      pose proof (Hb s1) as E; unfold calls_of in E; cbn [world fst snd] in E;
      destruct (body s1) as [s2 [e|a]]
    end; cbn [fst snd world trace] in *.
    + destruct (conn_exit drv (Some e) (fst (world s2))) as [w3 [e'|[]]];
        cbn [fst snd world]; rewrite E, <- app_assoc; reflexivity.
    + destruct (conn_exit drv None (fst (world s2))) as [w3 [e'|[]]];
        cbn [fst snd world]; rewrite E, <- app_assoc; reflexivity.
Qed.

Lemma mirrors_ret {A} (a : A) : mirrors (W := W) (mret a) (mret a).
Proof. intros s l. now repeat split. Qed.

Lemma mirrors_raise {A} (e : exn) : mirrors (W := W) (A := A) (raise e) (raise e).
Proof. intros s l. now repeat split. Qed.

Lemma mirrors_lift {A} (r : exn + A) : mirrors (W := W) (lift r) (lift r).
Proof. intros s l. now repeat split. Qed.

Lemma mirrors_emit (ev : event) : mirrors (W := W) (emit ev) (emit ev).
Proof. intros s l. now repeat split. Qed.

Lemma mirrors_log (lv : level) (msg : string) :
  mirrors (W := W) (log lv msg) (log lv msg).
Proof. intros s l. now repeat split. Qed.

Lemma mirrors_emit_all (evs : list event) :
  mirrors (W := W) (emit_all evs) (emit_all evs).
Proof. intros s l. now repeat split. Qed.

Lemma mirrors_read {A} (f : W -> A) :
  mirrors (read f) (read (fun wl : WL => f (fst wl))).
Proof. intros s l. now repeat split. Qed.

Lemma mirrors_call {A} (f : W -> W * (exn + A)) (f' : WL -> WL * (exn + A)) :
  (forall w l, fst (fst (f' (w, l))) = fst (f w) /\ snd (f' (w, l)) = snd (f w)) ->
  mirrors (call f) (call f').
Proof.
  intros H s l. unfold same_run, call. cbn [world trace].
  destruct (H (world s) l) as [H1 H2].
  destruct (f' (world s, l)) as [[w' l'] r'], (f (world s)) as [w r].
  simpl in *. now subst.
Qed.

Lemma mirrors_call_pass {A} (f : W -> W * (exn + A)) :
  mirrors (call f) (call (pass f)).
Proof.
  apply mirrors_call. intros w l. unfold pass. cbn [fst snd].
  now destruct (f w).
Qed.

Lemma mirrors_bind {A B} (m : M W A) (m' : M WL A) (f : A -> M W B)
    (f' : A -> M WL B) :
  mirrors m m' -> (forall a, mirrors (f a) (f' a)) -> mirrors (m ≫= f) (m' ≫= f').
Proof.
  intros Hm Hf s l. unfold mbind, M_bind.
  destruct (Hm s l) as (T & Wd & R).
  destruct (m' _) as [[[w1 l1] t1] r1], (m s) as [s1 r]. simpl in *. subst.
  destruct r as [e|a]; [now repeat split|].
  apply (Hf a s1 l1).
Qed.

Lemma mirrors_try_except {A} (m : M W A) (m' : M WL A) (h : exn -> option (M W A))
    (h' : exn -> option (M WL A)) :
  mirrors m m' ->
  (forall e, match h e, h' e with
             | Some k, Some k' => mirrors k k'
             | None, None => True
             | _, _ => False
             end) ->
  mirrors (try_except m h) (try_except m' h').
Proof.
  intros Hm Hh s l. unfold try_except.
  destruct (Hm s l) as (T & Wd & R).
  destruct (m' _) as [[[w1 l1] t1] r1], (m s) as [s1 r]. simpl in *. subst.
  destruct r as [e|a]; [|now repeat split].
  specialize (Hh e). destruct (h e) as [k|], (h' e) as [k'|]; try contradiction.
  - apply (Hh s1 l1).
  - now repeat split.
Qed.

Lemma mirrors_with_exit {A} (exit_ : option exn -> M W unit)
    (exit' : option exn -> M WL unit) (body : M W A) (body' : M WL A) :
  (forall exc, mirrors (exit_ exc) (exit' exc)) -> mirrors body body' ->
  mirrors (with_exit exit_ body) (with_exit exit' body').
Proof.
  intros Hx Hb s l. unfold with_exit.
  destruct (Hb s l) as (T & Wd & R).
  destruct (body' _) as [[[w1 l1] t1] r1], (body s) as [s1 r]. simpl in *. subst.
  destruct r as [e|a].
  - destruct (Hx (Some e) s1 l1) as (T & Wd & R).
    destruct (exit' _ _) as [[[w2 l2] t2] r2], (exit_ _ s1) as [s2 r].
    simpl in *. subst. destruct r as [e'|[]]; now repeat split.
  - destruct (Hx None s1 l1) as (T & Wd & R).
    destruct (exit' _ _) as [[[w2 l2] t2] r2], (exit_ _ s1) as [s2 r].
    simpl in *. subst. destruct r as [e'|[]]; now repeat split.
Qed.

Lemma mirrors_for_each {A B} (f : A -> M W B) (f' : A -> M WL B) (xs : list A) :
  (forall a, mirrors (f a) (f' a)) -> mirrors (for_each f xs) (for_each f' xs).
Proof.
  intros Hf. induction xs as [|x xs IH]; simpl.
  - apply mirrors_ret.
  - apply mirrors_bind; [apply Hf|]. intros y.
    apply mirrors_bind; [exact IH|]. intros ys. apply mirrors_ret.
Qed.

End Recording.

(** Stepping through a handler whose calls are recorded. *)
Ltac neutral_step :=
  lazymatch goal with
  | |- neutral (mbind _ _) => apply neutral_bind; [|intros ?]
  | |- neutral (mret _) => apply neutral_ret
  | |- neutral (raise _) => apply neutral_raise
  | |- neutral (lift _) => apply neutral_lift
  | |- neutral (read _) => apply neutral_read
  | |- neutral (call _) => apply neutral_call_pass
  | |- neutral (log _ _) => apply neutral_log
  | |- neutral (emit _) => apply neutral_emit
  | |- neutral (emit_all _) => apply neutral_emit_all
  | |- neutral (with_exit _ _) => apply neutral_with_exit; [intros ?|]
  | |- neutral (for_each _ _) => apply neutral_for_each; intros ?
  | |- neutral (if ?b then _ else _) => destruct b
  | |- neutral (match ?x with _ => _ end) => destruct x
  end.

Ltac neutral_steps :=
  unfold with_cursor, execute, fetchall, commit, rowcount; repeat neutral_step.

(** Stepping through a handler run against a driver and against the same
    driver with its calls recorded. *)
Ltac mirror_step :=
  lazymatch goal with
  | |- mirrors (mbind _ _) _ => apply mirrors_bind; [|intros ?]
  | |- mirrors (mret _) _ => apply mirrors_ret
  | |- mirrors (raise _) _ => apply mirrors_raise
  | |- mirrors (lift _) _ => apply mirrors_lift
  | |- mirrors (read _) _ => apply mirrors_read
  | |- mirrors (call _) _ =>
      apply mirrors_call_pass
      || (apply mirrors_call; intros ? ?; cbn [counting connect conn_exit fst snd];
          repeat match goal with
                 | |- context [match ?x with _ => _ end] => destruct x
                 end; now split)
  | |- mirrors (log _ _) _ => apply mirrors_log
  | |- mirrors (emit _) _ => apply mirrors_emit
  | |- mirrors (emit_all _) _ => apply mirrors_emit_all
  | |- mirrors (with_exit _ _) _ => apply mirrors_with_exit; [intros ?|]
  | |- mirrors (for_each _ _) _ => apply mirrors_for_each; intros ?
  | |- mirrors (if ?b then _ else _) _ => destruct b
  | |- mirrors (match ?x with _ => _ end) _ => destruct x
  end.

Ltac mirror_steps :=
  unfold with_connection, with_cursor, execute, fetchall, commit, rowcount;
  repeat mirror_step.

Section ConnectionsLeft.
Context {W : Type} (drv : Driver W) (env : environ).

Local Abbreviation rec := (counting drv).

Lemma neutral_get_db_config :
  neutral (get_db_config_m (W := W * list conn_call) env).
Proof. unfold get_db_config_m. neutral_steps. Qed.

Lemma neutral_list_resources_handler e k :
  list_resources_handler e = Some k -> neutral (W := W) k.
Proof.
  unfold list_resources_handler. destruct (is_Error e); [|discriminate].
  intros [= <-]. neutral_steps.
Qed.

Lemma neutral_read_resource_handler u e k :
  read_resource_handler u e = Some k -> neutral (W := W) k.
Proof.
  unfold read_resource_handler. destruct (is_Error e); [|discriminate].
  intros [= <-]. neutral_steps.
Qed.

Lemma neutral_call_tool_handler q e k :
  call_tool_handler q e = Some k -> neutral (W := W) k.
Proof. unfold call_tool_handler. intros [= <-]. neutral_steps. Qed.

Lemma settled_list_resources : settled (list_resources rec env).
Proof.
  unfold list_resources.
  apply settled_bind_neutral; [apply neutral_get_db_config | intros [config cs]].
  apply settled_try_except; [|apply neutral_list_resources_handler].
  apply settled_bind_neutral; [neutral_steps | intros _].
  apply settled_with_connection. neutral_steps.
Qed.

Lemma settled_read_resource (uri_str : string) :
  settled (read_resource rec env uri_str).
Proof.
  unfold read_resource.
  apply settled_bind_neutral; [apply neutral_get_db_config | intros [config cs]].
  apply settled_bind_neutral; [neutral_steps | intros _].
  destruct (negb _); [apply settled_neutral; neutral_steps|].
  apply settled_bind_neutral; [neutral_steps | intros table].
  apply settled_try_except; [|apply neutral_read_resource_handler].
  apply settled_with_connection. neutral_steps.
Qed.

Lemma settled_call_tool (name : string) (arguments : list (string * string)) :
  settled (call_tool rec env name arguments).
Proof.
  unfold call_tool.
  apply settled_bind_neutral; [apply neutral_get_db_config | intros [config cs]].
  apply settled_bind_neutral; [neutral_steps | intros _].
  destruct (negb _); [apply settled_neutral; neutral_steps|].
  destruct (dict_get arguments "query") as [query|];
    [|apply settled_neutral; neutral_steps].
  destruct (negb (truthy query)); [apply settled_neutral; neutral_steps|].
  apply settled_try_except; [|apply neutral_call_tool_handler].
  unfold call_tool_body. apply settled_with_connection. neutral_steps.
Qed.

Lemma settled_run {A} (m : M (W * list conn_call) A) (s : state W) :
  settled m -> left_once (calls_of (m (counted s))).
Proof. intros H. destruct (H (counted s)) as (calls & E & O). now rewrite E. Qed.

Lemma mirrors_run {A} (m : M W A) (m' : M (W * list conn_call) A) (s : state W) :
  mirrors m m' -> same_run (m s) (m' (counted s)).
Proof. intros H. apply (H s []). Qed.

Lemma mirrors_get_db_config :
  mirrors (get_db_config_m (W := W) env) (get_db_config_m env).
Proof. unfold get_db_config_m. mirror_steps. Qed.

Lemma mirrors_list_resources :
  mirrors (list_resources drv env) (list_resources rec env).
Proof.
  unfold list_resources.
  apply mirrors_bind; [apply mirrors_get_db_config | intros [config cs]].
  apply mirrors_try_except.
  - mirror_steps.
  - intros e. unfold list_resources_handler. destruct (is_Error e); [|exact I].
    mirror_steps.
Qed.

Lemma mirrors_read_resource (uri_str : string) :
  mirrors (read_resource drv env uri_str) (read_resource rec env uri_str).
Proof.
  unfold read_resource.
  apply mirrors_bind; [apply mirrors_get_db_config | intros [config cs]].
  apply mirrors_bind; [mirror_steps | intros _].
  destruct (negb _); [mirror_steps|].
  apply mirrors_bind; [mirror_steps | intros table].
  apply mirrors_try_except.
  - mirror_steps.
  - intros e. unfold read_resource_handler. destruct (is_Error e); [|exact I].
    mirror_steps.
Qed.

Lemma mirrors_call_tool (name : string) (arguments : list (string * string)) :
  mirrors (call_tool drv env name arguments) (call_tool rec env name arguments).
Proof.
  unfold call_tool.
  apply mirrors_bind; [apply mirrors_get_db_config | intros [config cs]].
  apply mirrors_bind; [mirror_steps | intros _].
  destruct (negb _); [mirror_steps|].
  destruct (dict_get arguments "query") as [query|]; [|mirror_steps].
  destruct (negb (truthy query)); [mirror_steps|].
  apply mirrors_try_except.
  - unfold call_tool_body. mirror_steps.
  - intros e. unfold call_tool_handler. mirror_steps.
Qed.

End ConnectionsLeft.



(** ** Running the handlers against a driver *)

(** Unfolding of the monad down to the calls into the driver. *)
Ltac run_monad :=
  repeat (progress
    (cbv beta iota zeta delta
       [mbind M_bind mret M_ret raise emit emit_all log call read lift
        try_except with_exit with_connection with_cursor execute fetchall commit
        rowcount get_db_config_m];
     cbn [world trace fst snd])).

Lemma table_of_uri_total (uri_str : string) : exists t, table_of_uri uri_str = inr t.
Proof.
  unfold table_of_uri.
  destruct (split "/" (slice uri_str (Some 8%Z) None)) as [|t ts] eqn:E.
  - now apply split_not_nil in E.
  - now exists t.
Qed.

(** C6: with a configuration that resolves, when [connect] raises a database
    error ([pyodbc.Error]: server unreachable, login failed, database not
    accessible), [list_resources] returns the empty list and raises nothing,
    while [read_resource] in the same situation raises: the run-time error
    that reports the database error for an address with the scheme, the
    value error about the scheme otherwise. *)
Theorem listing_degrades_reading_raises {W : Type} (drv : Driver W)
    (env : environ) (logs : list log_record) (cfg : db_config)
    (cs msg uri_str : string) (s : state W) (w' : W) :
  get_db_config env = (logs, inr (cfg, cs)) ->
  connect drv cs (world s) = (w', inl (Error msg)) ->
  snd (list_resources drv env s) = inr []
  /\ snd (read_resource drv env uri_str s)
     = inl (if startswith uri_str "mssql://"
            then RuntimeError ("Database error: " +:+ msg)
            else ValueError ("Invalid URI scheme: " +:+ uri_str)).
Proof.
  intros Hcfg Hconn. split.
  - unfold list_resources. run_monad. rewrite Hcfg. run_monad.
    rewrite Hconn. run_monad. unfold list_resources_handler.
    cbn [is_Error exn_str]. run_monad.
    destruct (contains msg "Login timeout expired"); run_monad; [reflexivity|].
    destruct (contains msg "Cannot open database"); run_monad; [reflexivity|].
    destruct (contains msg "Login failed"); run_monad; reflexivity.
  - unfold read_resource. run_monad. rewrite Hcfg. run_monad.
    destruct (startswith uri_str "mssql://"); cbn [negb]; [|reflexivity].
    destruct (table_of_uri_total uri_str) as [t ->]. run_monad.
    rewrite Hconn. run_monad. unfold read_resource_handler.
    cbn [is_Error exn_str]. run_monad. reflexivity.
Qed.

Lemma listing_degrades_reading_raises_witness :
  snd (list_resources Mock.driver env_plain (Mock.start Mock.unreachable)) = inr []
  /\ snd (read_resource Mock.driver env_plain "mssql://Customers/data"
            (Mock.start Mock.unreachable))
     = inl (RuntimeError "Database error: HYT00 Login timeout expired").
Proof.
  refine (listing_degrades_reading_raises Mock.driver env_plain _ _ _
            "HYT00 Login timeout expired" "mssql://Customers/data"
            (Mock.start Mock.unreachable) Mock.unreachable _ _);
    vm_compute; reflexivity.
Defined.

(** ** C4: [call_tool] absorbs the exceptions of the query *)

Lemma truthy_not_empty (q : string) : q <> EmptyString -> truthy q = true.
Proof. now destruct q. Qed.

(** C4: for the tool [execute_sql], a configuration that resolves and a
    non-empty query, [call_tool] returns a payload and raises nothing,
    whatever the driver does: when the [with] statement (connecting,
    executing, serializing, releasing) raises [e], the payload is the text
    [Error executing query: ] followed by [str(e)]; when it returns, its
    payload is returned. *)
Theorem call_tool_absorbs_exceptions {W : Type} (drv : Driver W)
    (env : environ) (logs : list log_record) (cfg : db_config) (cs q : string)
    (arguments : list (string * string)) (s : state W) :
  get_db_config env = (logs, inr (cfg, cs)) ->
  dict_get arguments "query" = Some q ->
  q <> EmptyString ->
  (exists payload, snd (call_tool drv env "execute_sql" arguments s) = inr payload)
  /\ (forall s2 e,
        call_tool_body drv cfg cs q (call_tool_entry logs "execute_sql" arguments s)
        = (s2, inl e) ->
        snd (call_tool drv env "execute_sql" arguments s)
        = inr (text_content ("Error executing query: " +:+ exn_str e)))
  /\ (forall s2 payload,
        call_tool_body drv cfg cs q (call_tool_entry logs "execute_sql" arguments s)
        = (s2, inr payload) ->
        call_tool drv env "execute_sql" arguments s = (s2, inr payload)).
Proof.
  intros Hcfg Hq Hne.
  assert (E : call_tool drv env "execute_sql" arguments s
              = try_except (call_tool_body drv cfg cs q) (call_tool_handler q)
                  (call_tool_entry logs "execute_sql" arguments s)).
  { unfold call_tool. run_monad. rewrite Hcfg. run_monad.
    change (String.eqb "execute_sql" "execute_sql") with true. cbn [negb].
    rewrite Hq, (truthy_not_empty q Hne). cbn [negb]. reflexivity. }
  rewrite E. unfold try_except, call_tool_handler.
  destruct (call_tool_body drv cfg cs q _) as [s1 [e|v]]; run_monad.
  - split; [eexists; reflexivity|]. split.
    + intros s2 e' [= _ <-]. reflexivity.
    + intros s2 v [=].
  - split; [eexists; reflexivity|]. split.
    + intros s2 e [=].
    + intros s2 v' [= <- <-]. reflexivity.
Qed.

Lemma call_tool_absorbs_exceptions_witness :
  snd (call_tool Mock.driver env_plain "execute_sql"
         [("query", "DROP TABLE DoesNotExist")] (Mock.start (Mock.shop false)))
  = inr (text_content "Error executing query: 42000 Incorrect syntax.").
Proof.
  refine (proj1 (proj2 (call_tool_absorbs_exceptions Mock.driver env_plain
            (fst (get_db_config env_plain)) _ _ "DROP TABLE DoesNotExist"
            [("query", "DROP TABLE DoesNotExist")] (Mock.start (Mock.shop false))
            _ _ _)) _ (Error "42000 Incorrect syntax.") _).
  - vm_compute. reflexivity.
  - reflexivity.
  - discriminate.
  - vm_compute. reflexivity.
Defined.

(** ** C3: statements that are neither SHOW TABLES nor SELECT *)

Lemma filter_driver_logs (logs : list log_record) :
  List.filter is_driver_event (map Log logs) = [].
Proof. induction logs as [|r logs IH]; [reflexivity | exact IH]. Qed.



(** ** C2: SELECT statements *)

Section SelectFacts.
Context {W : Type} (drv : Driver W) (env : environ).

Lemma select_is_not_show_tables (x : string) :
  startswith x "SELECT" = true -> String.eqb x "SHOW TABLES" = false.
Proof.
  intros H. destruct (String.eqb x "SHOW TABLES") eqn:E; [|reflexivity].
  apply String.eqb_eq in E. subst x. discriminate H.
Qed.

Lemma select_is_truthy (q : string) :
  startswith (upper (strip q)) "SELECT" = true -> truthy q = true.
Proof. destruct q; [discriminate | reflexivity]. Qed.

Lemma commit_free_get_db_config : commit_free (get_db_config_m (W := W) env).
Proof. now apply emits_get_db_config. Qed.

Lemma commit_free_select_body (cfg : db_config) (cs q : string) :
  startswith (upper (strip q)) "SELECT" = true ->
  commit_free (call_tool_body drv cfg cs q).
Proof.
  intros Hsel. unfold commit_free, call_tool_body.
  apply emits_with_connection; [reflexivity ..|].
  apply emits_with_cursor; [reflexivity ..|].
  rewrite (select_is_not_show_tables _ Hsel), Hsel.
  emits; now (apply emits_execute || apply emits_fetchall).
Qed.

Lemma commit_free_select_call (name : string) (arguments : list (string * string))
    (q : string) :
  dict_get arguments "query" = Some q ->
  startswith (upper (strip q)) "SELECT" = true ->
  commit_free (call_tool drv env name arguments).
Proof.
  intros Hq Hsel. unfold commit_free, call_tool.
  apply emits_bind; [apply commit_free_get_db_config | intros [config cs]].
  apply emits_bind; [emits | intros _].
  destruct (negb _); [emits|].
  rewrite Hq. destruct (negb (truthy q)); [emits|].
  apply emits_try_except; [now apply commit_free_select_body|].
  intros e k [= <-]. emits.
Qed.

End SelectFacts.

(** C2 as stated fails: the query starts with SELECT, the server rejects it,
    and the payload is the text of the error; no result set exists from which
    a header and rows could come. *)
Lemma rejected_select_returns_error_text :
  let q := "SELECT * FROM Missing" in
  let out := call_tool Mock.driver env_plain "execute_sql" [("query", q)]
               (Mock.start (Mock.shop false)) in
  startswith (upper (strip q)) "SELECT" = true
  /\ snd out
     = inr (text_content "Error executing query: 42S02 Invalid object name 'Missing'.")
  /\ cursor_description Mock.driver (world (fst out)) = None.
Proof. vm_compute. repeat split. Qed.

(** C2, amended: for the tool [execute_sql], a configuration that resolves
    and a query that starts with SELECT once trimmed and upper-cased, the
    handler never calls [commit()] and never reads the affected-row count,
    whatever the driver does; and when
    connecting, executing, describing, fetching and the releases raise
    nothing, the payload is the single text made of the comma-joined column
    names followed by one comma-joined line per fetched row. *)
Theorem select_is_tabular_and_never_commits {W : Type} (drv : Driver W)
    (env : environ) (logs : list log_record) (cfg : db_config) (cs q : string)
    (arguments : list (string * string)) (s : state W) :
  get_db_config env = (logs, inr (cfg, cs)) ->
  dict_get arguments "query" = Some q ->
  startswith (upper (strip q)) "SELECT" = true ->
  (exists evs, trace (fst (call_tool drv env "execute_sql" arguments s)) = trace s ++ evs
               /\ ~ In Commit evs /\ ~ In Rowcount evs)
  /\ (forall descs rows,
        query_session drv cs q (world s) descs rows ->
        snd (call_tool drv env "execute_sql" arguments s)
        = inr (text_content (tabular (map desc_name descs) rows))).
Proof.
  intros Hcfg Hq Hsel. split.
  - destruct (commit_free_select_call drv env "execute_sql" arguments q Hq Hsel s)
      as (evs & E & O).
    exists evs. split; [exact E | now apply commit_free_not_in].
  - intros descs rows (w1 & w2 & w3 & w4 & w5 & w6 & H1 & H2 & H3 & Hd & H4 & H5 & H6).
    unfold call_tool, call_tool_body. run_monad. rewrite Hcfg. run_monad.
    change (String.eqb "execute_sql" "execute_sql") with true. cbn [negb].
    rewrite Hq, (select_is_truthy q Hsel). cbn [negb]. run_monad.
    rewrite H1. run_monad. rewrite H2. run_monad. rewrite H3. run_monad.
    rewrite (select_is_not_show_tables _ Hsel), Hsel. run_monad.
    rewrite Hd. cbn [column_names]. run_monad. rewrite H4. run_monad.
    rewrite H5. run_monad. rewrite H6. run_monad. reflexivity.
Qed.

Lemma select_is_tabular_and_never_commits_witness :
  snd (call_tool Mock.driver env_plain "execute_sql"
         [("query", "select Name from Customers where Id = 2")]
         (Mock.start (Mock.shop false)))
  = inr (text_content ("Name" +:+ NL +:+ "Bo")).
Proof.
  refine (proj2 (select_is_tabular_and_never_commits Mock.driver env_plain
            (fst (get_db_config env_plain)) _ _
            "select Name from Customers where Id = 2"
            [("query", "select Name from Customers where Id = 2")]
            (Mock.start (Mock.shop false)) _ _ _)
          [Mock.col "Name"] [[PyStr "Bo"]] _).
  - vm_compute. reflexivity.
  - reflexivity.
  - vm_compute. reflexivity.
  - do 6 eexists. repeat split; vm_compute; reflexivity.
Defined.

(** ** C5: the SHOW TABLES shorthand *)

(** C5: the text of the query goes to the server as it was written before
    the handler looks at it. For the tool [execute_sql], a configuration
    that resolves and a query that is SHOW TABLES once trimmed and
    upper-cased: when the server rejects that text with the exception [e],
    the payload is [Error executing query: ] followed by the text of [e];
    the text of the query is the only statement sent, the catalogue query is
    not, and no header line and no table name is returned. *)
Theorem show_tables_is_sent_as_written {W : Type} (drv : Driver W)
    (env : environ) (logs : list log_record) (cfg : db_config) (cs q : string)
    (arguments : list (string * string)) (s : state W) (w1 w2 w3 w4 w5 : W)
    (e : exn) :
  get_db_config env = (logs, inr (cfg, cs)) ->
  dict_get arguments "query" = Some q ->
  upper (strip q) = "SHOW TABLES" ->
  connect drv cs (world s) = (w1, inr tt) ->
  conn_cursor drv w1 = (w2, inr tt) ->
  cursor_execute drv q w2 = (w3, inl e) ->
  cursor_exit drv (Some e) w3 = (w4, inr tt) ->
  conn_exit drv (Some e) w4 = (w5, inr tt) ->
  exists evs,
    call_tool drv env "execute_sql" arguments s
    = ({| world := w5; trace := trace s ++ evs |},
       inr (text_content ("Error executing query: " +:+ exn_str e)))
    /\ List.filter is_execute evs = [Execute q].
Proof.
  intros Hcfg Hq Hshow H1 H2 H3 H4 H5.
  assert (Ht : truthy q = true) by (destruct q; [discriminate | reflexivity]).
  exists (map Log logs
          ++ Log (INFO, "Calling tool: execute_sql with arguments: "
                        +:+ dict_repr arguments)
             :: [Connect cs; Opened; Cursor; Execute q; CursorExit; ConnExit;
                 Log (ERROR, "Error executing SQL '" +:+ q +:+ "': "
                             +:+ exn_str e)]).
  split.
  - unfold call_tool, call_tool_body, call_tool_handler. run_monad.
    rewrite Hcfg. run_monad.
    change (String.eqb "execute_sql" "execute_sql") with true. cbn [negb].
    rewrite Hq, Ht. cbn [negb]. run_monad.
    rewrite H1. run_monad. rewrite H2. run_monad. rewrite H3. run_monad.
    rewrite H4. run_monad. rewrite H5. run_monad.
    rewrite <- !app_assoc. reflexivity.
  - rewrite List.filter_app.
    assert (L : List.filter is_execute (map Log logs) = []).
    { clear. induction logs as [|r logs IH]; [reflexivity | exact IH]. }
    rewrite L. reflexivity.
Qed.

(** The call [execute_sql] with the query SHOW TABLES, against a server that
    knows no such statement: the payload is the server's error, and its
    first line is not the header. *)
Lemma show_tables_is_sent_as_written_witness :
  let out := call_tool Mock.driver env_plain "execute_sql" [("query", "SHOW TABLES")]
               (Mock.start (Mock.shop false)) in
  upper (strip "SHOW TABLES") = "SHOW TABLES"
  /\ snd out
     = inr (text_content
              "Error executing query: 42000 Could not find stored procedure 'SHOW'.")
  /\ (forall t, snd out = inr (text_content t) ->
                hd EmptyString (split nl t) <> "Tables_in_shop").
Proof.
  edestruct (fun logs cfg cs =>
               show_tables_is_sent_as_written Mock.driver env_plain
                 logs cfg cs "SHOW TABLES" [("query", "SHOW TABLES")]
                 (Mock.start (Mock.shop false)))
    as (evs & E & F); [vm_compute; reflexivity ..|].
  cbv zeta. rewrite E. cbn [snd].
  split; [reflexivity|]. split; [reflexivity|].
  intros t [= <-]. vm_compute. discriminate.
Defined.

(** ** C7: reading a table *)

Section ReadFacts.

Lemma slice_scheme (rest : string) :
  slice ("mssql://" +:+ rest) (Some 8%Z) None = rest.
Proof.
  unfold slice, len, clamp. rewrite length_append.
  change (String.length "mssql://") with 8.
  change (8 <? 0)%Z with false. cbv iota.
  replace (Z.to_nat (Z.min 8 (Z.of_nat (8 + String.length rest)))) with 8 by lia.
  replace (Z.to_nat (Z.of_nat (8 + String.length rest)
                     - Z.min 8 (Z.of_nat (8 + String.length rest))))
    with (String.length rest) by lia.
  rewrite (substring_skip "mssql://" rest). apply substring_all.
Qed.

(** The address of a table names that table. *)
Lemma table_of_uri_address (table : string) :
  count "/" table = 0 ->
  table_of_uri ("mssql://" +:+ table +:+ "/data") = inr table.
Proof.
  intros H. unfold table_of_uri. rewrite slice_scheme.
  change (table +:+ "/data") with (table +:+ String "/" "data").
  now rewrite split_app_sep.
Qed.

Lemma startswith_scheme (rest : string) :
  startswith ("mssql://" +:+ rest) "mssql://" = true.
Proof. apply prefix_app. Qed.

Lemma count_all_serialized (rows : list row) :
  Forall (Forall (fun v => count nl (py_str v) = 0)) rows ->
  count_all nl (map serialize_row rows) = 0.
Proof.
  intros H. apply count_all_zero.
  apply List.Forall_forall. intros line Hin.
  apply in_map_iff in Hin as (r & <- & Hr).
  rewrite List.Forall_forall in H. specialize (H r Hr).
  assert (L := line_count_serialize_row r).
  unfold line_count in L. rewrite length_split in L.
  rewrite count_all_zero in L; [lia|].
  apply List.Forall_forall. intros x Hx.
  apply in_map_iff in Hx as (v & <- & Hv).
  rewrite List.Forall_forall in H. now apply H.
Qed.

(** Without a newline in a column name or in the text of a cell, the text
    has the header as its first line and one line per row after it. *)
Lemma tabular_lines (columns : list string) (rows : list row) :
  Forall (fun c => count nl c = 0) columns ->
  Forall (Forall (fun v => count nl (py_str v) = 0)) rows ->
  hd EmptyString (split nl (tabular columns rows)) = join "," columns
  /\ line_count (tabular columns rows) = 1 + length rows.
Proof.
  intros Hc Hr.
  assert (Hh : count nl (join "," columns) = 0).
  { rewrite count_join, (count_all_zero _ _ Hc).
    assert (E : Ascii.eqb ","%char nl = false) by reflexivity.
    now rewrite E. }
  split.
  - unfold tabular. destruct (map serialize_row rows) as [|l ls].
    + cbn [join]. now rewrite split_no_sep.
    + rewrite join_cons2. unfold NL. rewrite append_cons, append_nil_l.
      now rewrite split_app_sep.
  - unfold line_count, tabular, NL. rewrite length_split, count_join.
    rewrite Ascii.eqb_refl. cbn [length Nat.pred].
    change (join "," columns :: map serialize_row rows)
      with ([join "," columns] ++ map serialize_row rows).
    rewrite count_all_app, (count_all_serialized rows Hr), length_map.
    unfold count_all. cbn [map]. rewrite Hh. simpl list_sum. lia.
Qed.

End ReadFacts.

(** C7 as stated fails: the table [Notes] gives 100 rows, the last of which
    holds a text of two lines; the text returned for its address has 102
    lines. *)
Lemma multiline_cell_exceeds_101_lines :
  exists text,
    snd (read_resource Mock.driver env_plain "mssql://Notes/data"
           (Mock.start (Mock.shop false))) = inr text
    /\ line_count text = 102
    /\ ~ line_count text <= 101.
Proof. eexists. split; [vm_compute; reflexivity|]. vm_compute. split; [reflexivity | lia]. Qed.

(** C7, amended: for a configuration that resolves and the address
    [mssql://<table>/data] of a table whose name holds no slash, when
    connecting, executing [SELECT TOP 100 * FROM <table>], describing,
    fetching and the releases raise nothing, [read_resource] returns the
    comma-joined column names followed, each on a new line, by the
    comma-joined cells of every fetched row; when no column name and no cell
    text holds a newline, the first line is the comma-joined column names
    and the text has one line more than rows fetched, hence at most 101
    lines when the server returns at most 100 rows. *)
Theorem read_resource_is_header_and_rows {W : Type} (drv : Driver W)
    (env : environ) (logs : list log_record) (cfg : db_config) (cs table : string)
    (s : state W) (descs : list column_desc) (rows : list row) :
  get_db_config env = (logs, inr (cfg, cs)) ->
  count "/" table = 0 ->
  query_session drv cs ("SELECT TOP 100 * FROM " +:+ table) (world s) descs rows ->
  let text := tabular (map desc_name descs) rows in
  snd (read_resource drv env ("mssql://" +:+ table +:+ "/data") s) = inr text
  /\ (Forall (fun d => count nl (desc_name d) = 0) descs ->
      Forall (Forall (fun v => count nl (py_str v) = 0)) rows ->
      hd EmptyString (split nl text) = join "," (map desc_name descs)
      /\ line_count text = 1 + length rows
      /\ (length rows <= 100 -> line_count text <= 101)).
Proof.
  intros Hcfg Htable
    (w1 & w2 & w3 & w4 & w5 & w6 & H1 & H2 & H3 & Hd & H4 & H5 & H6) text.
  split.
  - unfold read_resource. run_monad. rewrite Hcfg. run_monad.
    rewrite startswith_scheme. cbn [negb].
    rewrite (table_of_uri_address table Htable). run_monad.
    rewrite H1. run_monad. rewrite H2. run_monad. rewrite H3. run_monad.
    rewrite Hd. cbn [column_names]. run_monad. rewrite H4. run_monad.
    rewrite H5. run_monad. rewrite H6. run_monad. reflexivity.
  - intros Hc Hr.
    destruct (tabular_lines (map desc_name descs) rows) as [Hhd Hlines].
    + apply List.Forall_forall. intros c Hin.
      apply in_map_iff in Hin as (d & <- & Hd').
      rewrite List.Forall_forall in Hc. now apply Hc.
    + exact Hr.
    + subst text. rewrite Hhd, Hlines. repeat split. lia.
Qed.

Lemma read_resource_is_header_and_rows_witness :
  snd (read_resource Mock.driver env_plain "mssql://Customers/data"
         (Mock.start (Mock.shop false)))
  = inr ("Id,Name" +:+ NL +:+ "1,Ann" +:+ NL +:+ "2,Bo")
  /\ line_count ("Id,Name" +:+ NL +:+ "1,Ann" +:+ NL +:+ "2,Bo") <= 101.
Proof.
  destruct (read_resource_is_header_and_rows Mock.driver env_plain
              (fst (get_db_config env_plain)) _ _ "Customers"
              (Mock.start (Mock.shop false))
              [Mock.col "Id"; Mock.col "Name"]
              [[PyInt 1; PyStr "Ann"]; [PyInt 2; PyStr "Bo"]]
              ltac:(vm_compute; reflexivity) eq_refl
              ltac:(do 6 eexists; repeat split; vm_compute; reflexivity))
    as [Hread Hlines].
  split; [exact Hread|].
  destruct Hlines as (_ & _ & Hle).
  - repeat constructor.
  - repeat constructor.
  - apply Hle. simpl. lia.
Defined.

(** * Further properties of the code *)

(** ** [clean_env_var] and [get_db_config] *)

Section CleaningFacts.

Lemma length_substring (n m : nat) (s : string) :
  n + m <= String.length s -> String.length (String.substring n m s) = m.
Proof.
  revert n m. induction s as [|a s IH]; intros n m H; simpl in H.
  - destruct n, m; simpl in *; try lia; reflexivity.
  - destruct n as [|n]; simpl.
    + destruct m as [|m]; simpl; [reflexivity|]. rewrite IH; [reflexivity | lia].
    + apply IH. lia.
Qed.

(** Between its first and its last character a text of [n + 2] characters
    has [n] characters. *)
Lemma length_slice_inner (v : string) :
  2 <= String.length v ->
  String.length (slice v (Some 1%Z) (Some (-1)%Z)) = String.length v - 2.
Proof.
  intros H. unfold slice, len, clamp.
  change (1 <? 0)%Z with false. change (-1 <? 0)%Z with true. cbv iota.
  replace (Z.to_nat (Z.min 1 (Z.of_nat (String.length v)))) with 1 by lia.
  replace (Z.to_nat (Z.max (-1 + Z.of_nat (String.length v)) 0
                     - Z.min 1 (Z.of_nat (String.length v))))
    with (String.length v - 2) by lia.
  apply length_substring. lia.
Qed.

Lemma truthy_length (s : string) : truthy s = negb (Nat.eqb (String.length s) 0).
Proof. now destruct s. Qed.

Lemma startswith_char (a q : ascii) (s : string) :
  startswith (String a s) (String q EmptyString) = Ascii.eqb a q.
Proof.
  unfold startswith. simpl. destruct (ascii_dec q a) as [->|Hne].
  - rewrite Ascii.eqb_refl. now destruct s.
  - symmetry. apply Ascii.eqb_neq. congruence.
Qed.

Lemma clean_env_var_present (env : environ) (k v : string) (d : option string) :
  env !! k = Some v -> clean_env_var env k d = Some (cleaned v).
Proof.
  intros H. unfold clean_env_var, getenv, cleaned. rewrite H.
  now destruct (_ && _).
Qed.

Lemma endswith_two (a b q : ascii) :
  endswith (String a (String b EmptyString)) (String q EmptyString) = Ascii.eqb b q.
Proof.
  unfold endswith. simpl. destruct (Ascii.eqb b q); reflexivity.
Qed.

(** [blank_setting] with its five texts spelled out. *)
Lemma blank_setting_eq (v : string) :
  blank_setting v
  = (String.eqb v EmptyString
     || String.eqb v (String squote EmptyString)
     || String.eqb v (String squote (String squote EmptyString))
     || String.eqb v (String dquote EmptyString)
     || String.eqb v (String dquote (String dquote EmptyString))).
Proof.
  unfold blank_setting. cbn [existsb].
  change (SQ +:+ SQ) with (String squote (String squote EmptyString)).
  change (DQ +:+ DQ) with (String dquote (String dquote EmptyString)).
  unfold SQ, DQ. now rewrite orb_false_r, !orb_assoc.
Qed.

Lemma blank_setting_long (a b c : ascii) (r : string) :
  blank_setting (String a (String b (String c r))) = false.
Proof.
  rewrite blank_setting_eq. cbn [String.eqb].
  repeat match goal with |- context [Ascii.eqb ?x ?y] => destruct (Ascii.eqb x y) end;
    reflexivity.
Qed.

(** A value is cleaned to the empty text exactly when it is blank. *)
Lemma truthy_cleaned (v : string) : truthy (cleaned v) = negb (blank_setting v).
Proof.
  rewrite blank_setting_eq.
  destruct v as [|a [|b [|c r]]].
  - reflexivity.
  - unfold cleaned, SQ, DQ. cbn [truthy andb].
    rewrite !startswith_char. cbn [String.eqb].
    destruct (Ascii.eqb a squote) eqn:E1.
    + apply Ascii.eqb_eq in E1. subst a. reflexivity.
    + destruct (Ascii.eqb a dquote) eqn:E2.
      * apply Ascii.eqb_eq in E2. subst a. reflexivity.
      * reflexivity.
  - unfold cleaned, SQ, DQ. cbn [truthy andb].
    rewrite !startswith_char, !endswith_two. cbn [String.eqb].
    destruct (Ascii.eqb a squote) eqn:E1; destruct (Ascii.eqb b squote) eqn:E2;
      destruct (Ascii.eqb a dquote) eqn:E3; destruct (Ascii.eqb b dquote) eqn:E4;
      repeat match goal with
             | H : Ascii.eqb _ _ = true |- _ => apply Ascii.eqb_eq in H; subst
             end;
      try discriminate; reflexivity.
  - rewrite <- blank_setting_eq, blank_setting_long. cbn [negb].
    unfold cleaned. destruct (_ && _); [|reflexivity].
    rewrite truthy_length, length_slice_inner by (simpl; lia). reflexivity.
Qed.

Lemma truthy_clean_required (env : environ) (k : string) :
  truthy_opt (clean_env_var env k None) = required_present env k.
Proof.
  unfold required_present. destruct (env !! k) as [v|] eqn:E.
  - rewrite (clean_env_var_present env k v None E). apply truthy_cleaned.
  - unfold clean_env_var, getenv. now rewrite E.
Qed.

End CleaningFacts.

(** X1: [get_db_config] returns exactly when MSSQL_USER, MSSQL_PASSWORD and
    MSSQL_DATABASE are all set to a value that is neither empty, nor a lone
    quote character, nor an empty pair of quotes; in every other case it
    raises the value error about the missing configuration. *)
Theorem get_db_config_requires_three_settings (env : environ) :
  if required_present env "MSSQL_USER"
     && required_present env "MSSQL_PASSWORD"
     && required_present env "MSSQL_DATABASE"
  then exists cfg cs, snd (get_db_config env) = inr (cfg, cs)
  else snd (get_db_config env)
       = inl (ValueError "Missing required database configuration").
Proof.
  unfold get_db_config. rewrite !truthy_clean_required.
  destruct (_ && _ && _); cbn [negb snd]; [|reflexivity].
  eexists _, _. reflexivity.
Qed.

Section MoreCleaningFacts.

Lemma endswith_last (s : string) (b q : ascii) :
  endswith (s +:+ String b EmptyString) (String q EmptyString) = Ascii.eqb b q.
Proof.
  unfold endswith. rewrite length_append. simpl String.length.
  replace (1 <=? String.length s + 1)%nat with true
    by (symmetry; apply Nat.leb_le; lia).
  replace (String.length s + 1 - 1) with (String.length s) by lia.
  rewrite substring_skip. simpl.
  destruct (Ascii.eqb b q); reflexivity.
Qed.

Lemma endswith_cons_last (a b q : ascii) (s : string) :
  endswith (String a (s +:+ String b EmptyString)) (String q EmptyString)
  = Ascii.eqb b q.
Proof. rewrite <- append_cons. apply endswith_last. Qed.

Lemma clean_env_var_insert_ne (env : environ) (k k' v : string) (d : option string) :
  k <> k' -> clean_env_var (<[k := v]> env) k' d = clean_env_var env k' d.
Proof.
  intros H. unfold clean_env_var, getenv. now rewrite lookup_insert_ne.
Qed.

Lemma getenv_insert_ne (env : environ) (k k' v : string) (d : option string) :
  k <> k' -> getenv (<[k := v]> env) k' d = getenv env k' d.
Proof. intros H. unfold getenv. now rewrite lookup_insert_ne. Qed.

End MoreCleaningFacts.

(** X2: [clean_env_var] removes exactly the outer pair of a value that
    starts and ends with the same quote character, whatever stands between
    them (a second pair inside stays); a value that starts with one kind of
    quote and ends with the other, and a value whose first character is no
    quote, are returned as they are. *)
Theorem clean_env_var_strips_one_layer (env : environ) (k v : string)
    (d : option string) (q q' a : ascii) :
  (q = squote \/ q = dquote) ->
  (q' = squote \/ q' = dquote) ->
  q <> q' ->
  a <> squote -> a <> dquote ->
  (env !! k = Some (String q (v +:+ String q EmptyString)) ->
   clean_env_var env k d = Some v)
  /\ (env !! k = Some (String q (v +:+ String q' EmptyString)) ->
      clean_env_var env k d = Some (String q (v +:+ String q' EmptyString)))
  /\ (env !! k = Some (String a v) -> clean_env_var env k d = Some (String a v)).
Proof.
  intros Hq Hq' Hne Ha1 Ha2. split; [|split]; intros Hk.
  - now apply (clean_env_var_quoted env k v d q).
  - rewrite (clean_env_var_present env k _ d Hk). f_equal.
    unfold cleaned, SQ, DQ. rewrite !startswith_char, !endswith_cons_last.
    destruct Hq as [-> | ->], Hq' as [-> | ->]; try contradiction; reflexivity.
  - rewrite (clean_env_var_present env k _ d Hk). f_equal.
    unfold cleaned, SQ, DQ. rewrite !startswith_char.
    apply Ascii.eqb_neq in Ha1, Ha2. now rewrite Ha1, Ha2.
Qed.

Lemma clean_env_var_strips_one_layer_witness :
  clean_env_var env_plain "MSSQL_PASSWORD" None = Some "s3cr3t!pw".
Proof.
  apply (clean_env_var_strips_one_layer env_plain "MSSQL_PASSWORD" "s3cr3t!pw"
           None squote dquote "s"%char);
    (left; reflexivity) || (right; reflexivity) || discriminate
    || (vm_compute; reflexivity).
Defined.

(** X3: the connection string is the ten settings joined by semicolons with
    nothing quoted or escaped: it has ten semicolon-separated parameters
    plus one for every semicolon inside the driver name, host, port,
    database, user, password and the four options. *)
Theorem connection_string_parameters (env : environ) (logs : list log_record)
    (cfg : db_config) (cs : string) :
  get_db_config env = (logs, inr (cfg, cs)) ->
  length (split ";" cs) = 10 + count_all ";" (connection_values env).
Proof.
  unfold get_db_config. destruct (negb _); [discriminate|].
  intros [= _ _ <-].
  rewrite length_split, !count_app.
  unfold count_all, connection_values. cbn [map list_sum].
  cbn [count Ascii.eqb Bool.eqb list_sum fold_right]. lia.
Qed.

Lemma connection_string_parameters_witness :
  exists cs, snd (get_db_config (<["MSSQL_PASSWORD" := "pw;Encrypt=no"]> env_plain))
             = inr ({| cfg_driver := Some "ODBC Driver 18 for SQL Server";
                       cfg_server := "localhost:1433"; cfg_user := Some "sa";
                       cfg_database := Some "shop"; cfg_password := "********" |}, cs)
             /\ length (split ";" cs) = 11.
Proof.
  eexists. split; [vm_compute; reflexivity|].
  etransitivity.
  - eapply (connection_string_parameters
              (<["MSSQL_PASSWORD" := "pw;Encrypt=no"]> env_plain)).
    vm_compute. reflexivity.
  - vm_compute. reflexivity.
Defined.

(** X4: a password of one to four characters leaves nothing in the log:
    two environments that differ only in such passwords give the same log
    lines. *)
Theorem short_password_leaves_no_trace (env : environ) (v1 v2 : string) :
  truthy (cleaned v1) = true -> (len (cleaned v1) <= 4)%Z ->
  truthy (cleaned v2) = true -> (len (cleaned v2) <= 4)%Z ->
  fst (get_db_config (<["MSSQL_PASSWORD" := v1]> env))
  = fst (get_db_config (<["MSSQL_PASSWORD" := v2]> env)).
Proof.
  intros T1 L1 T2 L2. unfold get_db_config.
  rewrite !(clean_env_var_insert_ne env "MSSQL_PASSWORD" "MSSQL_DRIVER") by discriminate.
  rewrite !(clean_env_var_insert_ne env "MSSQL_PASSWORD" "MSSQL_HOST") by discriminate.
  rewrite !(clean_env_var_insert_ne env "MSSQL_PASSWORD" "MSSQL_PORT") by discriminate.
  rewrite !(clean_env_var_insert_ne env "MSSQL_PASSWORD" "MSSQL_USER") by discriminate.
  rewrite !(clean_env_var_insert_ne env "MSSQL_PASSWORD" "MSSQL_DATABASE") by discriminate.
  rewrite (clean_env_var_present _ "MSSQL_PASSWORD" v1 None) by apply lookup_insert_eq.
  rewrite (clean_env_var_present _ "MSSQL_PASSWORD" v2 None) by apply lookup_insert_eq.
  unfold password_log. cbn [truthy_opt]. rewrite T1, T2.
  replace (4 <? len (cleaned v1))%Z with false by (symmetry; apply Z.ltb_ge; lia).
  replace (4 <? len (cleaned v2))%Z with false by (symmetry; apply Z.ltb_ge; lia).
  cbn [andb]. rewrite !andb_true_r.
  destruct (negb _); reflexivity.
Qed.

Lemma short_password_leaves_no_trace_witness :
  fst (get_db_config (<["MSSQL_PASSWORD" := "ab1!"]> env_plain))
  = fst (get_db_config (<["MSSQL_PASSWORD" := "'zz'"]> env_plain)).
Proof.
  apply (short_password_leaves_no_trace env_plain "ab1!" "'zz'");
    vm_compute; congruence.
Defined.

(** ** Requests that never reach the database *)

Section ConfigFailure.
Context {W : Type} (drv : Driver W) (env : environ).

(** The handlers start with [get_db_config] and stop when it raises. *)
Lemma config_failure_is_raised (logs : list log_record) (e : exn)
    (uri_str name : string) (arguments : list (string * string)) (s : state W) :
  get_db_config env = (logs, inl e) ->
  list_resources drv env s = (after_config logs s, inl e)
  /\ read_resource drv env uri_str s = (after_config logs s, inl e)
  /\ call_tool drv env name arguments s = (after_config logs s, inl e).
Proof.
  intros Hcfg. unfold after_config.
  split; [|split]; [unfold list_resources | unfold read_resource | unfold call_tool];
    run_monad; rewrite Hcfg; reflexivity.
Qed.

End ConfigFailure.

(** X5: when the configuration does not resolve, each of the three handlers
    raises the exception of [get_db_config] after its log lines and nothing
    else happens: no call into the driver is made and the world is as it
    was. *)
Theorem config_error_precedes_connection {W : Type} (drv : Driver W)
    (env : environ) (logs : list log_record) (e : exn)
    (uri_str name : string) (arguments : list (string * string)) (s : state W) :
  get_db_config env = (logs, inl e) ->
  list_resources drv env s = (after_config logs s, inl e)
  /\ read_resource drv env uri_str s = (after_config logs s, inl e)
  /\ call_tool drv env name arguments s = (after_config logs s, inl e).
Proof. apply config_failure_is_raised. Qed.

Lemma config_error_precedes_connection_witness :
  snd (list_resources Mock.driver env_no_database
         (Mock.start (Mock.shop false)))
  = inl (ValueError "Missing required database configuration")
  /\ Mock.opened (world (fst (list_resources Mock.driver
                                env_no_database
                                (Mock.start (Mock.shop false))))) = 0.
Proof.
  pose proof (config_error_precedes_connection Mock.driver
                env_no_database
                (fst (get_db_config env_no_database))
                (ValueError "Missing required database configuration")
                "mssql://Customers/data" "execute_sql" []
                (Mock.start (Mock.shop false))
                ltac:(vm_compute; reflexivity)) as [H _].
  rewrite H. split; reflexivity.
Defined.

(** X6: with a configuration that resolves, [call_tool] raises
    [Unknown tool: <name>] for every name other than [execute_sql], whatever
    the arguments, and [Query is required] for [execute_sql] when the
    argument [query] is absent or empty; in both cases after its first log
    line only, without a call into the driver. *)
Theorem call_tool_rejects_bad_requests {W : Type} (drv : Driver W)
    (env : environ) (logs : list log_record) (cfg : db_config) (cs name : string)
    (arguments : list (string * string)) (s : state W) :
  get_db_config env = (logs, inr (cfg, cs)) ->
  (name <> "execute_sql" ->
   call_tool drv env name arguments s
   = (call_tool_entry logs name arguments s, inl (ValueError ("Unknown tool: " +:+ name))))
  /\ (name = "execute_sql" ->
      dict_get arguments "query" = None
      \/ dict_get arguments "query" = Some EmptyString ->
      call_tool drv env name arguments s
      = (call_tool_entry logs name arguments s, inl (ValueError "Query is required"))).
Proof.
  intros Hcfg. split.
  - intros Hname. unfold call_tool, call_tool_entry. run_monad.
    rewrite Hcfg. run_monad.
    apply String.eqb_neq in Hname. rewrite Hname. reflexivity.
  - intros -> Hq. unfold call_tool, call_tool_entry. run_monad.
    rewrite Hcfg. run_monad.
    change (String.eqb "execute_sql" "execute_sql") with true. cbn [negb].
    destruct Hq as [-> | ->]; reflexivity.
Qed.

Lemma call_tool_rejects_bad_requests_witness :
  snd (call_tool Mock.driver env_plain "drop_everything" [("query", "SELECT 1")]
         (Mock.start (Mock.shop false)))
  = inl (ValueError "Unknown tool: drop_everything")
  /\ snd (call_tool Mock.driver env_plain "execute_sql" [("sql", "SELECT 1")]
            (Mock.start (Mock.shop false)))
     = inl (ValueError "Query is required").
Proof.
  split.
  - refine (f_equal snd (proj1 (call_tool_rejects_bad_requests Mock.driver env_plain
              (fst (get_db_config env_plain)) _ _ "drop_everything"
              [("query", "SELECT 1")] (Mock.start (Mock.shop false)) _) _)).
    + vm_compute. reflexivity.
    + discriminate.
  - refine (f_equal snd (proj2 (call_tool_rejects_bad_requests Mock.driver env_plain
              (fst (get_db_config env_plain)) _ _ "execute_sql"
              [("sql", "SELECT 1")] (Mock.start (Mock.shop false)) _) _ _)).
    + vm_compute. reflexivity.
    + reflexivity.
    + left. reflexivity.
Defined.

(** X7: with a configuration that resolves, [read_resource] on an address
    that does not start with [mssql://] raises [Invalid URI scheme: <uri>]
    after logging the address, without a call into the driver. *)
Theorem read_resource_rejects_other_schemes {W : Type} (drv : Driver W)
    (env : environ) (logs : list log_record) (cfg : db_config)
    (cs uri_str : string) (s : state W) :
  get_db_config env = (logs, inr (cfg, cs)) ->
  startswith uri_str "mssql://" = false ->
  read_resource drv env uri_str s
  = ({| world := world s;
        trace := (trace s ++ map Log logs)
                 ++ [Log (INFO, "Reading resource: " +:+ uri_str)] |},
     inl (ValueError ("Invalid URI scheme: " +:+ uri_str))).
Proof.
  intros Hcfg Hs. unfold read_resource. run_monad. rewrite Hcfg. run_monad.
  rewrite Hs. reflexivity.
Qed.

Lemma read_resource_rejects_other_schemes_witness :
  snd (read_resource Mock.driver env_plain "mysql://Customers/data"
         (Mock.start (Mock.shop false)))
  = inl (ValueError "Invalid URI scheme: mysql://Customers/data").
Proof.
  refine (f_equal snd (read_resource_rejects_other_schemes Mock.driver env_plain
            (fst (get_db_config env_plain)) _ _ "mysql://Customers/data"
            (Mock.start (Mock.shop false)) _ _));
    vm_compute; reflexivity.
Defined.

(** ** Addresses *)

Section AddressFacts.

Lemma count_slash_split (t rest : string) :
  count "/" t = 0 ->
  exists pieces, split "/" (t +:+ String "/" rest) = t :: pieces.
Proof. intros H. rewrite split_app_sep by exact H. now eexists. Qed.

End AddressFacts.

(** X8: the address [list_resources] gives a table is read back by
    [read_resource] as that table when the name holds no slash; of a name
    with a slash only the part before the first slash is read back. *)
Theorem listed_address_reads_back (table rest : string) :
  count "/" table = 0 ->
  startswith (uri (resource_of table)) "mssql://" = true
  /\ table_of_uri (uri (resource_of table)) = inr table
  /\ table_of_uri (uri (resource_of (table +:+ "/" +:+ rest))) = inr table.
Proof.
  intros H. cbn [uri resource_of]. split; [apply startswith_scheme|]. split.
  - now apply table_of_uri_address.
  - unfold table_of_uri. rewrite slice_scheme.
    rewrite !append_assoc.
    change ("/" +:+ rest +:+ "/data") with (String "/" (rest +:+ "/data")).
    now rewrite split_app_sep.
Qed.

Lemma listed_address_reads_back_witness :
  table_of_uri (uri (resource_of "Customers")) = inr "Customers"
  /\ table_of_uri (uri (resource_of ("dbo" +:+ "/" +:+ "Customers"))) = inr "dbo".
Proof.
  destruct (listed_address_reads_back "Customers" "x" eq_refl) as (_ & H1 & _).
  destruct (listed_address_reads_back "dbo" "Customers" eq_refl) as (_ & _ & H2).
  split; assumption.
Defined.

(** X9: [read_resource] uses the first path segment of the address only:
    the suffix [/data] is not required and anything after the first slash is
    ignored. *)
Theorem address_suffix_is_ignored (table rest : string) :
  count "/" table = 0 ->
  table_of_uri ("mssql://" +:+ table) = inr table
  /\ table_of_uri ("mssql://" +:+ table +:+ "/" +:+ rest) = inr table.
Proof.
  intros H. unfold table_of_uri. rewrite !slice_scheme. split.
  - now rewrite split_no_sep.
  - change ("/" +:+ rest) with (String "/" rest). now rewrite split_app_sep.
Qed.

Lemma address_suffix_is_ignored_witness :
  table_of_uri ("mssql://" +:+ "Orders") = inr "Orders"
  /\ table_of_uri ("mssql://" +:+ "Orders" +:+ "/" +:+ "schema/v2") = inr "Orders".
Proof. apply (address_suffix_is_ignored "Orders" "schema/v2"). reflexivity. Defined.

(** ** Which exceptions leave a handler *)

(** Unfolding of the steps of a handler that come before its [try]. *)
Ltac run_prefix :=
  repeat (progress
    (cbv beta iota zeta delta
       [mbind M_bind mret M_ret raise emit emit_all log lift get_db_config_m];
     cbn [world trace fst snd])).

(** X10: the handlers of [list_resources] and [read_resource] catch
    [pyodbc.Error] only: when [connect] raises any other exception,
    [list_resources] raises it instead of returning the empty list, and
    [read_resource], for an address with the scheme, raises it as it is,
    not as a run-time error. *)
Theorem other_exceptions_pass_through {W : Type} (drv : Driver W)
    (env : environ) (logs : list log_record) (cfg : db_config)
    (cs uri_str : string) (e : exn) (s : state W) (w' : W) :
  get_db_config env = (logs, inr (cfg, cs)) ->
  is_Error e = false ->
  connect drv cs (world s) = (w', inl e) ->
  snd (list_resources drv env s) = inl e
  /\ (startswith uri_str "mssql://" = true ->
      snd (read_resource drv env uri_str s) = inl e).
Proof.
  intros Hcfg He Hconn. split.
  - unfold list_resources. run_monad. rewrite Hcfg. run_monad.
    rewrite Hconn. run_monad. unfold list_resources_handler. now rewrite He.
  - intros Hs. unfold read_resource. run_monad. rewrite Hcfg. run_monad.
    rewrite Hs. cbn [negb].
    destruct (table_of_uri_total uri_str) as [t ->]. run_monad.
    rewrite Hconn. run_monad. unfold read_resource_handler. now rewrite He.
Qed.

Lemma other_exceptions_pass_through_witness :
  snd (list_resources Mock.driver env_plain (Mock.start broken_installation))
  = inl (OtherException "ODBC driver manager not found")
  /\ snd (read_resource Mock.driver env_plain "mssql://Customers/data"
            (Mock.start broken_installation))
     = inl (OtherException "ODBC driver manager not found").
Proof.
  destruct (other_exceptions_pass_through Mock.driver env_plain
              (fst (get_db_config env_plain)) _ _ "mssql://Customers/data"
              (OtherException "ODBC driver manager not found")
              (Mock.start broken_installation) broken_installation
              ltac:(vm_compute; reflexivity) eq_refl eq_refl) as [H1 H2].
  split; [exact H1 | apply H2; reflexivity].
Defined.

Section EscapeFacts.
Context {W : Type} (drv : Driver W) (env : environ).

Lemma get_db_config_raises_no_Error (logs : list log_record) (e : exn) :
  get_db_config env = (logs, inl e) -> is_Error e = false.
Proof.
  unfold get_db_config. destruct (negb _); [|discriminate].
  now intros [= _ <-].
Qed.

(** A [try] whose clauses catch every [pyodbc.Error] and raise none lets
    none out. *)
Lemma try_except_stops_Error {A} (m : M W A) (h : exn -> option (M W A))
    (s : state W) (msg : string) :
  (forall e, is_Error e = true -> h e <> None) ->
  (forall e k s', h e = Some k -> snd (k s') <> inl (Error msg)) ->
  snd (try_except m h s) <> inl (Error msg).
Proof.
  intros Hcatch Hk. unfold try_except.
  destruct (m s) as [s1 [e|a]]; [|discriminate].
  destruct (h e) as [k|] eqn:E; [now apply (Hk e k s1)|].
  cbn [snd]. intros [= ->]. now apply (Hcatch (Error msg)).
Qed.

End EscapeFacts.

(** X11: no handler lets a [pyodbc.Error] out, whatever the driver does and
    wherever it raises it: [list_resources] and [call_tool] answer it with
    a result, [read_resource] with a run-time error. *)
Theorem database_errors_never_escape {W : Type} (drv : Driver W)
    (env : environ) (uri_str name : string) (arguments : list (string * string))
    (s : state W) (msg : string) :
  snd (list_resources drv env s) <> inl (Error msg)
  /\ snd (read_resource drv env uri_str s) <> inl (Error msg)
  /\ snd (call_tool drv env name arguments s) <> inl (Error msg).
Proof.
  destruct (get_db_config env) as [logs [e|[cfg cs]]] eqn:Hcfg.
  - pose proof (get_db_config_raises_no_Error env logs e Hcfg) as He.
    destruct (config_failure_is_raised drv env logs e uri_str name arguments s Hcfg)
      as (-> & -> & ->).
    cbn [snd]. repeat split; intros [= ->]; discriminate.
  - split; [|split].
    + unfold list_resources. run_prefix. rewrite Hcfg. run_prefix.
      apply try_except_stops_Error.
      * intros e He. unfold list_resources_handler. now rewrite He.
      * intros e k s'. unfold list_resources_handler.
        destruct (is_Error e); [|discriminate]. intros [= <-]. run_prefix.
        repeat match goal with |- context [contains ?a ?b] => destruct (contains a b) end;
          discriminate.
    + unfold read_resource. run_prefix. rewrite Hcfg. run_prefix.
      destruct (negb _); [discriminate|].
      destruct (table_of_uri_total uri_str) as [t ->]. run_prefix.
      apply try_except_stops_Error.
      * intros e He. unfold read_resource_handler. now rewrite He.
      * intros e k s'. unfold read_resource_handler.
        destruct (is_Error e); [|discriminate]. intros [= <-]. discriminate.
    + unfold call_tool. run_prefix. rewrite Hcfg. run_prefix.
      destruct (negb _); [discriminate|].
      destruct (dict_get arguments "query") as [q|]; [|discriminate].
      destruct (negb (truthy q)); [discriminate|].
      apply try_except_stops_Error.
      * intros e He. discriminate.
      * intros e k s'. unfold call_tool_handler. intros [= <-]. discriminate.
Qed.

(** ** When the handlers commit *)

Section CommitFacts.
Context {W : Type} (drv : Driver W) (env : environ).

Lemma commit_free_list_resources : commit_free (list_resources drv env).
Proof.
  unfold commit_free, list_resources.
  apply emits_bind; [apply commit_free_get_db_config | intros [config cs]].
  apply emits_try_except.
  - apply emits_bind; [emits | intros _].
    apply emits_with_connection; [reflexivity ..|].
    apply emits_bind; [emits | intros _].
    apply emits_with_cursor; [reflexivity ..|].
    emits; now (apply emits_execute || apply emits_fetchall).
  - intros e k. unfold list_resources_handler.
    destruct (is_Error e); [|discriminate]. intros [= <-]. emits.
Qed.

Lemma commit_free_read_resource (uri_str : string) :
  commit_free (read_resource drv env uri_str).
Proof.
  unfold commit_free, read_resource.
  apply emits_bind; [apply commit_free_get_db_config | intros [config cs]].
  apply emits_bind; [emits | intros _].
  destruct (negb _); [emits|].
  apply emits_bind; [emits | intros table].
  apply emits_try_except.
  - apply emits_with_connection; [reflexivity ..|].
    apply emits_with_cursor; [reflexivity ..|].
    emits; now (apply emits_execute || apply emits_fetchall).
  - intros e k. unfold read_resource_handler.
    destruct (is_Error e); [|discriminate]. intros [= <-]. emits.
Qed.

Lemma commit_free_show_tables_call (name : string)
    (arguments : list (string * string)) (q : string) :
  dict_get arguments "query" = Some q ->
  String.eqb (upper (strip q)) "SHOW TABLES" = true ->
  commit_free (call_tool drv env name arguments).
Proof.
  intros Hq Hshow. unfold commit_free, call_tool.
  apply emits_bind; [apply commit_free_get_db_config | intros [config cs]].
  apply emits_bind; [emits | intros _].
  destruct (negb _); [emits|].
  rewrite Hq. destruct (negb (truthy q)); [emits|].
  apply emits_try_except; [|intros e k [= <-]; emits].
  unfold call_tool_body.
  apply emits_with_connection; [reflexivity ..|].
  apply emits_with_cursor; [reflexivity ..|].
  rewrite Hshow. cbv zeta.
  emits; now (apply emits_execute || apply emits_fetchall).
Qed.

Lemma commit_free_without_query (name : string) (arguments : list (string * string)) :
  dict_get arguments "query" = None ->
  commit_free (call_tool drv env name arguments).
Proof.
  intros Hq. unfold commit_free, call_tool.
  apply emits_bind; [apply commit_free_get_db_config | intros [config cs]].
  apply emits_bind; [emits | intros _].
  destruct (negb _); [emits|]. rewrite Hq. emits.
Qed.

Lemma commit_free_run {A} (m : M W A) (s : state W) (evs : list event) :
  commit_free m -> trace (fst (m s)) = trace s ++ evs -> ~ In Commit evs.
Proof.
  intros Hm Ht. destruct (Hm s) as (evs' & E & O).
  rewrite E in Ht. apply app_inv_head in Ht. subst evs'.
  now apply commit_free_not_in.
Qed.

End CommitFacts.

(** X12: [commit()] is called by [call_tool] only, and only for a query
    that, trimmed and upper-cased, is neither SHOW TABLES nor starts with
    SELECT: listing, reading, the SHOW TABLES shorthand and SELECT never
    call it, whatever the driver does. *)
Theorem commit_only_for_other_statements {W : Type} (drv : Driver W)
    (env : environ) (uri_str name : string) (arguments : list (string * string))
    (s : state W) (evs : list event) :
  (trace (fst (list_resources drv env s)) = trace s ++ evs -> ~ In Commit evs)
  /\ (trace (fst (read_resource drv env uri_str s)) = trace s ++ evs ->
      ~ In Commit evs)
  /\ (trace (fst (call_tool drv env name arguments s)) = trace s ++ evs ->
      In Commit evs ->
      exists q, dict_get arguments "query" = Some q
                /\ String.eqb (upper (strip q)) "SHOW TABLES" = false
                /\ startswith (upper (strip q)) "SELECT" = false).
Proof.
  split; [|split].
  - apply commit_free_run, commit_free_list_resources.
  - apply commit_free_run, commit_free_read_resource.
  - intros Ht Hin.
    destruct (dict_get arguments "query") as [q|] eqn:Hq.
    + exists q. split; [reflexivity|].
      destruct (String.eqb (upper (strip q)) "SHOW TABLES") eqn:Hshow.
      { exfalso. revert Hin. eapply commit_free_run; [|exact Ht].
        now apply (commit_free_show_tables_call drv env name arguments q). }
      destruct (startswith (upper (strip q)) "SELECT") eqn:Hsel; [|now split].
      exfalso. revert Hin. eapply commit_free_run; [|exact Ht].
      now apply (commit_free_select_call drv env name arguments q).
    + exfalso. revert Hin. eapply commit_free_run; [|exact Ht].
      now apply commit_free_without_query.
Qed.

Lemma commit_only_for_other_statements_witness :
  exists q, dict_get [("query", "DELETE FROM Orders WHERE Id=99")] "query" = Some q
            /\ String.eqb (upper (strip q)) "SHOW TABLES" = false
            /\ startswith (upper (strip q)) "SELECT" = false.
Proof.
  refine (proj2 (proj2 (commit_only_for_other_statements Mock.driver env_plain
            "mssql://Orders/data" "execute_sql"
            [("query", "DELETE FROM Orders WHERE Id=99")]
            (Mock.start (Mock.shop false)) _)) _ _).
  - vm_compute. reflexivity.
  - vm_compute. tauto.
Defined.

(** X13: a query that starts with SELECT and leaves no result set (its
    [description] is [None], as after SELECT ... INTO) is answered with the
    text of the type error raised on the description: nothing is fetched,
    nothing is committed by the handler, and cursor and connection are left
    with that exception in flight. *)
Theorem select_without_result_set {W : Type} (drv : Driver W)
    (env : environ) (logs : list log_record) (cfg : db_config) (cs q : string)
    (arguments : list (string * string)) (s : state W) (w1 w2 w3 w4 w5 : W) :
  get_db_config env = (logs, inr (cfg, cs)) ->
  dict_get arguments "query" = Some q ->
  startswith (upper (strip q)) "SELECT" = true ->
  let e := TypeError "'NoneType' object is not iterable" in
  connect drv cs (world s) = (w1, inr tt) ->
  conn_cursor drv w1 = (w2, inr tt) ->
  cursor_execute drv q w2 = (w3, inr tt) ->
  cursor_description drv w3 = None ->
  cursor_exit drv (Some e) w3 = (w4, inr tt) ->
  conn_exit drv (Some e) w4 = (w5, inr tt) ->
  call_tool drv env "execute_sql" arguments s
  = ({| world := w5;
        trace := trace (call_tool_entry logs "execute_sql" arguments s)
                 ++ [Connect cs; Opened; Cursor; Execute q; CursorExit; ConnExit;
                     Log (ERROR, "Error executing SQL '" +:+ q +:+ "': "
                                 +:+ exn_str e)] |},
     inr (text_content ("Error executing query: " +:+ exn_str e))).
Proof.
  intros Hcfg Hq Hsel e H1 H2 H3 Hd H4 H5.
  unfold call_tool, call_tool_body, call_tool_entry, call_tool_handler. run_monad.
  rewrite Hcfg. run_monad.
  change (String.eqb "execute_sql" "execute_sql") with true. cbn [negb].
  rewrite Hq, (select_is_truthy q Hsel). cbn [negb]. run_monad.
  rewrite H1. run_monad. rewrite H2. run_monad. rewrite H3. run_monad.
  rewrite (select_is_not_show_tables _ Hsel), Hsel. run_monad.
  rewrite Hd. cbn [column_names]. run_monad.
  fold e. rewrite H4. run_monad. rewrite H5. run_monad.
  rewrite <- !app_assoc. reflexivity.
Qed.

Lemma select_without_result_set_witness :
  exists st,
    call_tool Mock.driver env_plain "execute_sql"
      [("query", "SELECT * INTO Backup FROM Customers")] (Mock.start shop_with_backup)
    = (st, inr (text_content
                  "Error executing query: 'NoneType' object is not iterable"))
    /\ Mock.commits (world st) = 0.
Proof.
  eexists. split.
  - etransitivity.
    + eapply (select_without_result_set Mock.driver env_plain);
        vm_compute; reflexivity.
    + vm_compute. reflexivity.
  - reflexivity.
Defined.

(** ** Reading the text back *)

Section ParseFacts.

(** Splitting at the separator undoes joining with it, for a list that is
    not empty and whose texts are free of the separator. *)
Lemma split_join (c : ascii) (l : list string) :
  l <> [] ->
  Forall (fun x => count c x = 0) l ->
  split c (join (String c EmptyString) l) = l.
Proof.
  intros Hne Hall. induction Hall as [|x l Hx Hall IH]; [contradiction|].
  destruct l as [|y l].
  - cbn [join]. now apply split_no_sep.
  - rewrite join_cons2, append_cons, append_nil_l.
    rewrite split_app_sep by exact Hx. f_equal. now apply IH.
Qed.

Lemma count_serialize_row (c : ascii) (r : row) :
  Ascii.eqb ","%char c = false ->
  Forall (fun v => count c (py_str v) = 0) r ->
  count c (serialize_row r) = 0.
Proof.
  intros Hc Hr. unfold serialize_row. rewrite count_join, Hc.
  rewrite count_all_zero; [lia|].
  apply List.Forall_forall. intros x Hx. apply in_map_iff in Hx as (v & <- & Hv).
  rewrite List.Forall_forall in Hr. now apply Hr.
Qed.

Lemma Forall_map_py_str (c : ascii) (r : row) :
  Forall (fun v => count c (py_str v) = 0) r ->
  Forall (fun x => count c x = 0) (map py_str r).
Proof. induction 1; constructor; assumption. Qed.

End ParseFacts.

(** X14: the text of a result can be read back: when there is at least one
    column, every row has at least one cell, and no column name and no cell
    text holds a comma or a newline, splitting the text into lines and the
    lines at commas gives the column names followed by the texts of the
    cells of each row. *)
Theorem tabular_reads_back (columns : list string) (rows : list row) :
  columns <> [] ->
  Forall (fun r => r <> []) rows ->
  Forall (fun c => count "," c = 0 /\ count nl c = 0) columns ->
  Forall (Forall (fun v => count "," (py_str v) = 0 /\ count nl (py_str v) = 0)) rows ->
  parse_tabular (tabular columns rows) = columns :: map (map py_str) rows.
Proof.
  intros Hcols Hrows Hc Hr.
  assert (Hc1 : Forall (fun c => count "," c = 0) columns)
    by (eapply List.Forall_impl; [|exact Hc]; now intros ? []).
  assert (Hc2 : Forall (fun c => count nl c = 0) columns)
    by (eapply List.Forall_impl; [|exact Hc]; now intros ? []).
  assert (Hr1 : Forall (Forall (fun v => count "," (py_str v) = 0)) rows).
  { eapply List.Forall_impl; [|exact Hr]. intros r H.
    eapply List.Forall_impl; [|exact H]. now intros ? []. }
  assert (Hr2 : Forall (Forall (fun v => count nl (py_str v) = 0)) rows).
  { eapply List.Forall_impl; [|exact Hr]. intros r H.
    eapply List.Forall_impl; [|exact H]. now intros ? []. }
  unfold parse_tabular, tabular, NL.
  rewrite split_join.
  - cbn [map]. f_equal.
    + now apply split_join.
    + rewrite map_map. clear Hr Hr2.
      induction Hrows as [|r rows Hne _ IH]; [reflexivity|].
      inversion Hr1 as [|? ? Hr0 Hrest]; subst. cbn [map]. f_equal.
      * unfold serialize_row. apply split_join.
        -- now destruct r.
        -- now apply Forall_map_py_str.
      * now apply IH.
  - discriminate.
  - constructor.
    + rewrite count_join, (count_all_zero _ _ Hc2).
      assert (E : Ascii.eqb ","%char nl = false) by reflexivity. now rewrite E.
    + apply List.Forall_forall. intros x Hx.
      apply in_map_iff in Hx as (r & <- & Hin).
      rewrite List.Forall_forall in Hr2. apply count_serialize_row; [reflexivity|].
      now apply Hr2.
Qed.

Lemma tabular_reads_back_witness :
  parse_tabular (tabular ["Id"; "Name"] [[PyInt 1; PyStr "Ann"]; [PyInt 2; PyStr "Bo"]])
  = [["Id"; "Name"]; ["1"; "Ann"]; ["2"; "Bo"]].
Proof.
  apply (tabular_reads_back ["Id"; "Name"] [[PyInt 1; PyStr "Ann"]; [PyInt 2; PyStr "Bo"]]).
  - discriminate.
  - repeat constructor; discriminate.
  - repeat constructor.
  - repeat constructor.
Defined.

(** ** A release that fails *)

(** X15: an exception raised when the connection is released replaces the
    result of the [with] statement: for a statement of ASCII text that was
    executed and committed, [call_tool] still answers with the text of that
    exception. Apart from log lines, the run consists of the calls listed,
    in that order. *)
Theorem release_failure_replaces_result {W : Type} (drv : Driver W)
    (env : environ) (logs : list log_record) (cfg : db_config) (cs q : string)
    (arguments : list (string * string)) (s : state W) (w1 w2 w3 w4 w5 w6 : W)
    (e : exn) :
  get_db_config env = (logs, inr (cfg, cs)) ->
  dict_get arguments "query" = Some q ->
  truthy q = true ->
  isascii q = true ->
  String.eqb (upper (strip q)) "SHOW TABLES" = false ->
  startswith (upper (strip q)) "SELECT" = false ->
  connect drv cs (world s) = (w1, inr tt) ->
  conn_cursor drv w1 = (w2, inr tt) ->
  cursor_execute drv q w2 = (w3, inr tt) ->
  conn_commit drv w3 = (w4, inr tt) ->
  cursor_exit drv None w4 = (w5, inr tt) ->
  conn_exit drv None w5 = (w6, inl e) ->
  exists evs,
    call_tool drv env "execute_sql" arguments s
    = ({| world := w6; trace := trace s ++ evs |},
       inr (text_content ("Error executing query: " +:+ exn_str e)))
    /\ List.filter is_driver_event evs
       = [Connect cs; Opened; Cursor; Execute q; Commit; Rowcount;
          CursorExit; ConnExit].
Proof.
  intros Hcfg Hq Ht _ Hshow Hsel H1 H2 H3 H4 H5 H6.
  exists (map Log logs
          ++ Log (INFO, "Calling tool: execute_sql with arguments: "
                        +:+ dict_repr arguments)
             :: [Connect cs; Opened; Cursor; Execute q; Commit; Rowcount;
                 CursorExit; ConnExit;
                 Log (ERROR, "Error executing SQL '" +:+ q +:+ "': "
                             +:+ exn_str e)]).
  split.
  - unfold call_tool, call_tool_body, call_tool_handler. run_monad.
    rewrite Hcfg. run_monad.
    change (String.eqb "execute_sql" "execute_sql") with true. cbn [negb].
    rewrite Hq, Ht. cbn [negb]. run_monad.
    rewrite H1. run_monad. rewrite H2. run_monad. rewrite H3. run_monad.
    rewrite Hshow, Hsel. run_monad. rewrite H4. run_monad.
    rewrite H5. run_monad. rewrite H6. run_monad.
    rewrite <- !app_assoc. reflexivity.
  - rewrite List.filter_app, filter_driver_logs. reflexivity.
Qed.

Lemma release_failure_replaces_result_witness :
  exists evs st,
    call_tool driver_losing_link env_plain "execute_sql"
      [("query", "UPDATE Customers SET Name='X' WHERE Id=1")]
      (Mock.start (Mock.shop false))
    = (st, inr (text_content
                  "Error executing query: 08S01 Communication link failure"))
    /\ Mock.commits (world st) = 1
    /\ In Commit evs.
Proof.
  edestruct (fun logs cfg cs q =>
               release_failure_replaces_result driver_losing_link env_plain
                 logs cfg cs q
                 [("query", "UPDATE Customers SET Name='X' WHERE Id=1")]
                 (Mock.start (Mock.shop false)))
    as (evs & E & F); [vm_compute; reflexivity ..|].
  exists (List.filter is_driver_event evs). eexists. split; [exact E|].
  rewrite F. split; [reflexivity|]. simpl. tauto.
Defined.

(** ** Cursor and connection are left in order *)

Section NestingFacts.
Context {W : Type} (drv : Driver W) (env : environ).

Lemma filter_scope_free (evs : list event) :
  forallb (fun ev => negb (is_scope_event ev)) evs = true ->
  List.filter is_scope_event evs = [].
Proof.
  induction evs as [|ev evs IH]; simpl; [reflexivity|].
  destruct (is_scope_event ev); simpl; [discriminate | exact IH].
Qed.

Lemma shape_free {A} (P : list event -> Prop) (m : M W A) :
  scope_free m -> P [] -> shape P m.
Proof.
  intros Hm HP s. destruct (Hm s) as (evs & E & O).
  exists evs. split; [exact E|]. now rewrite filter_scope_free.
Qed.

Lemma shape_bind_free {A B} (P : list event -> Prop) (m : M W A) (f : A -> M W B) :
  scope_free m -> P [] -> (forall a, shape P (f a)) -> shape P (m ≫= f).
Proof.
  intros Hm HP Hf s. unfold mbind, M_bind.
  destruct (Hm s) as (evs1 & E1 & O1). apply filter_scope_free in O1.
  destruct (m s) as [s1 [e|a]]; simpl in *.
  - exists evs1. split; [exact E1 | now rewrite O1].
  - destruct (Hf a s1) as (evs2 & E2 & O2).
    exists (evs1 ++ evs2). rewrite E2, E1, app_assoc. split; [reflexivity|].
    now rewrite List.filter_app, O1.
Qed.

Lemma shape_try_except {A} (P : list event -> Prop) (m : M W A)
    (h : exn -> option (M W A)) :
  shape P m -> (forall e k, h e = Some k -> scope_free k) ->
  shape P (try_except m h).
Proof.
  intros Hm Hh s. unfold try_except.
  destruct (Hm s) as (evs1 & E1 & O1).
  destruct (m s) as [s1 [e|a]]; simpl in *; [|now exists evs1].
  destruct (h e) as [k|] eqn:Ek; [|now exists evs1].
  destruct (Hh e k Ek s1) as (evs2 & E2 & O2). apply filter_scope_free in O2.
  exists (evs1 ++ evs2). rewrite E2, E1, app_assoc. split; [reflexivity|].
  now rewrite List.filter_app, O2, app_nil_r.
Qed.

(** The cursor's [with] statement: the cursor is asked for; when that
    returns it is left once, after its body. *)
Lemma shape_with_cursor {A} (body : M W A) :
  scope_free body -> shape cursor_shape (with_cursor drv body).
Proof.
  intros Hb s. unfold with_cursor, mbind, M_bind, emit, call. simpl.
  destruct (conn_cursor drv (world s)) as [w1 [e|[]]]; simpl.
  - exists [Cursor]. split; [reflexivity | right; now left].
  - unfold with_exit.
    match goal with |- context [body ?s1] =>
      destruct (Hb s1) as (evs & E & O); destruct (body s1) as [s2 [e|a]]
    end; simpl in *; apply filter_scope_free in O.
    + destruct (cursor_exit drv (Some e) (world s2)) as [w3 [e'|[]]]; simpl;
        exists ([Cursor] ++ evs ++ [CursorExit]);
        (split; [rewrite E, <- !app_assoc; reflexivity|]);
        right; right; simpl; now rewrite List.filter_app, O.
    + destruct (cursor_exit drv None (world s2)) as [w3 [e'|[]]]; simpl;
        exists ([Cursor] ++ evs ++ [CursorExit]);
        (split; [rewrite E, <- !app_assoc; reflexivity|]);
        right; right; simpl; now rewrite List.filter_app, O.
Qed.

(** The connection's [with] statement around a body that uses a cursor. *)
Lemma shape_with_connection {A} (cs : string) (body : M W A) :
  shape cursor_shape body -> shape connection_shape (with_connection drv cs body).
Proof.
  intros Hb s. unfold with_connection, mbind, M_bind, emit, call. simpl.
  destruct (connect drv cs (world s)) as [w1 [e|[]]]; simpl.
  - exists [Connect cs]. split; [reflexivity | now left].
  - unfold with_exit.
    match goal with |- context [body ?s1] =>
      destruct (Hb s1) as (evs & E & O); destruct (body s1) as [s2 [e|a]]
    end; simpl in *.
    + destruct (conn_exit drv (Some e) (world s2)) as [w3 [e'|[]]]; simpl;
        exists ([Connect cs; Opened] ++ evs ++ [ConnExit]);
        (split; [rewrite E, <- !app_assoc; reflexivity|]);
        simpl; rewrite List.filter_app; simpl;
        destruct O as [-> | [-> | ->]]; unfold connection_shape; simpl; tauto.
    + destruct (conn_exit drv None (world s2)) as [w3 [e'|[]]]; simpl;
        exists ([Connect cs; Opened] ++ evs ++ [ConnExit]);
        (split; [rewrite E, <- !app_assoc; reflexivity|]);
        simpl; rewrite List.filter_app; simpl;
        destruct O as [-> | [-> | ->]]; unfold connection_shape; simpl; tauto.
Qed.

Lemma scope_free_get_db_config : scope_free (get_db_config_m (W := W) env).
Proof. now apply emits_get_db_config. Qed.

Ltac free := unfold scope_free, execute, fetchall, commit, rowcount; emits.

Lemma nested_list_resources : shape connection_shape (list_resources drv env).
Proof.
  unfold list_resources.
  apply shape_bind_free; [apply scope_free_get_db_config | now left | intros [config cs]].
  apply shape_try_except.
  - apply shape_bind_free; [free | now left | intros _].
    apply shape_with_connection.
    apply shape_bind_free; [free | now left | intros _].
    apply shape_with_cursor. free.
  - intros e k. unfold list_resources_handler.
    destruct (is_Error e); [|discriminate]. intros [= <-]. free.
Qed.

Lemma nested_read_resource (uri_str : string) :
  shape connection_shape (read_resource drv env uri_str).
Proof.
  unfold read_resource.
  apply shape_bind_free; [apply scope_free_get_db_config | now left | intros [config cs]].
  apply shape_bind_free; [free | now left | intros _].
  destruct (negb _); [apply shape_free; [free | now left]|].
  apply shape_bind_free; [free | now left | intros table].
  apply shape_try_except.
  - apply shape_with_connection, shape_with_cursor. free.
  - intros e k. unfold read_resource_handler.
    destruct (is_Error e); [|discriminate]. intros [= <-]. free.
Qed.

Lemma nested_call_tool (name : string) (arguments : list (string * string)) :
  shape connection_shape (call_tool drv env name arguments).
Proof.
  unfold call_tool.
  apply shape_bind_free; [apply scope_free_get_db_config | now left | intros [config cs]].
  apply shape_bind_free; [free | now left | intros _].
  destruct (negb _); [apply shape_free; [free | now left]|].
  destruct (dict_get arguments "query") as [query|];
    [|apply shape_free; [free | now left]].
  destruct (negb (truthy query)); [apply shape_free; [free | now left]|].
  apply shape_try_except; [|intros e k [= <-]; free].
  unfold call_tool_body. apply shape_with_connection, shape_with_cursor.
  unfold scope_free, execute, fetchall, commit, rowcount.
  emits_step; [emits|].
  destruct (String.eqb _ _); [cbv zeta; emits|].
  destruct (startswith _ _); emits.
Qed.

End NestingFacts.

(** X17: in every run of [list_resources], [read_resource] and [call_tool],
    whatever the driver does, the cursor is left at most once, only after
    it was asked for and before the connection is left, and the connection
    is left last. *)
Theorem cursor_is_left_before_connection {W : Type} (drv : Driver W)
    (env : environ) (uri_str name : string) (arguments : list (string * string))
    (s : state W) :
  (exists evs, trace (fst (list_resources drv env s)) = trace s ++ evs
               /\ well_nested evs)
  /\ (exists evs, trace (fst (read_resource drv env uri_str s)) = trace s ++ evs
                  /\ well_nested evs)
  /\ (exists evs, trace (fst (call_tool drv env name arguments s)) = trace s ++ evs
                  /\ well_nested evs).
Proof.
  split; [|split].
  - apply nested_list_resources.
  - apply nested_read_resource.
  - apply nested_call_tool.
Qed.

(** ** The advertised tool *)

Section ToolFacts.
Context {W : Type} (drv : Driver W) (env : environ).

Lemma call_tool_with_query_returns (logs : list log_record) (cfg : db_config)
    (cs q : string) (arguments : list (string * string)) (s : state W) :
  get_db_config env = (logs, inr (cfg, cs)) ->
  dict_get arguments "query" = Some q ->
  q <> EmptyString ->
  exists payload, snd (call_tool drv env "execute_sql" arguments s) = inr payload.
Proof.
  intros Hcfg Hq Hne. unfold call_tool. run_prefix. rewrite Hcfg. run_prefix.
  change (String.eqb "execute_sql" "execute_sql") with true. cbn [negb].
  rewrite Hq, (truthy_not_empty q Hne). cbn [negb].
  unfold try_except, call_tool_handler.
  destruct (call_tool_body drv cfg cs q _) as [s1 [e|v]]; run_prefix;
    eexists; reflexivity.
Qed.

End ToolFacts.

(** X18: [list_tools] raises nothing and advertises one tool; a call of
    [call_tool] with the advertised name and arguments that give a
    non-empty text for every name the advertised schema requires is
    accepted: with a configuration that resolves it returns a payload and
    raises nothing. *)
Theorem advertised_tool_is_accepted {W : Type} (drv : Driver W)
    (env : environ) (logs : list log_record) (cfg : db_config) (cs : string)
    (arguments : list (string * string)) (s0 s : state W) :
  get_db_config env = (logs, inr (cfg, cs)) ->
  exists tool,
    list_tools s0
    = ({| world := world s0; trace := trace s0 ++ [Log (INFO, "Listing tools...")] |},
       inr [tool])
    /\ ((forall k, In k (required_keys (inputSchema tool)) ->
                   exists v, dict_get arguments k = Some v /\ v <> EmptyString) ->
        exists payload,
          snd (call_tool drv env (tool_name tool) arguments s) = inr payload).
Proof.
  intros Hcfg. eexists. split; [reflexivity|].
  cbn [inputSchema tool_name]. intros Hreq.
  destruct (Hreq "query") as (q & Hq & Hne); [left; reflexivity|].
  now apply (call_tool_with_query_returns drv env logs cfg cs q).
Qed.

Lemma advertised_tool_is_accepted_witness :
  exists tool,
    snd (list_tools (Mock.start (Mock.shop false))) = inr [tool]
    /\ exists payload,
         snd (call_tool Mock.driver env_plain (tool_name tool)
                [("query", "SELECT TOP 100 * FROM Customers")]
                (Mock.start (Mock.shop false))) = inr payload.
Proof.
  destruct (advertised_tool_is_accepted Mock.driver env_plain
              (fst (get_db_config env_plain)) _ _
              [("query", "SELECT TOP 100 * FROM Customers")]
              (Mock.start (Mock.shop false)) (Mock.start (Mock.shop false))
              ltac:(vm_compute; reflexivity)) as (tool & Hl & Hc).
  exists tool. split; [now rewrite Hl|].
  apply Hc. apply (f_equal snd) in Hl. vm_compute in Hl.
  injection Hl as <-. intros k [<- | []].
  eexists. split; [reflexivity | discriminate].
Defined.

(** ** The statements a handler sends *)

Section Observations.
Context {W : Type} (sel : event -> bool).

Lemma filter_unobserved (evs : list event) :
  forallb (fun ev => negb (sel ev)) evs = true -> List.filter sel evs = [].
Proof.
  induction evs as [|ev evs IH]; simpl; [reflexivity|].
  destruct (sel ev); simpl; [discriminate | exact IH].
Qed.

Lemma observes_unobserved {A} (P : list event -> Prop) (m : M W A) :
  unobserved sel m -> P [] -> observes sel P m.
Proof.
  intros Hm HP s. destruct (Hm s) as (evs & E & O).
  exists evs. split; [exact E|]. now rewrite filter_unobserved.
Qed.

Lemma observes_weaken {A} (P Q : list event -> Prop) (m : M W A) :
  (forall l, P l -> Q l) -> observes sel P m -> observes sel Q m.
Proof.
  intros HPQ Hm s. destruct (Hm s) as (evs & E & HP).
  exists evs. split; [exact E | now apply HPQ].
Qed.

Lemma observes_bind_unobserved {A B} (P : list event -> Prop)
    (m : M W A) (f : A -> M W B) :
  unobserved sel m -> P [] -> (forall a, observes sel P (f a)) ->
  observes sel P (m ≫= f).
Proof.
  intros Hm HP Hf s. unfold mbind, M_bind.
  destruct (Hm s) as (evs1 & E1 & O1). apply filter_unobserved in O1.
  destruct (m s) as [s1 [e|a]]; simpl in *.
  - exists evs1. split; [exact E1 | now rewrite O1].
  - destruct (Hf a s1) as (evs2 & E2 & O2).
    exists (evs1 ++ evs2). rewrite E2, E1, app_assoc. split; [reflexivity|].
    now rewrite List.filter_app, O1.
Qed.

(** What follows a step that is observed on every path. *)
Lemma observes_bind_then {A B} (pre : list event) (P : list event -> Prop)
    (m : M W A) (f : A -> M W B) :
  observes sel (eq pre) m -> (forall a, observes sel P (f a)) ->
  observes sel (fun l => l = pre \/ exists l', P l' /\ l = pre ++ l') (m ≫= f).
Proof.
  intros Hm Hf s. unfold mbind, M_bind.
  destruct (Hm s) as (evs1 & E1 & O1).
  destruct (m s) as [s1 [e|a]]; simpl in *.
  - exists evs1. split; [exact E1 | now left].
  - destruct (Hf a s1) as (evs2 & E2 & O2).
    exists (evs1 ++ evs2). rewrite E2, E1, app_assoc. split; [reflexivity|].
    right. exists (List.filter sel evs2). split; [exact O2|].
    now rewrite List.filter_app, <- O1.
Qed.

Lemma observes_try_except {A} (P : list event -> Prop) (m : M W A)
    (h : exn -> option (M W A)) :
  observes sel P m -> (forall e k, h e = Some k -> unobserved sel k) ->
  observes sel P (try_except m h).
Proof.
  intros Hm Hh s. unfold try_except.
  destruct (Hm s) as (evs1 & E1 & O1).
  destruct (m s) as [s1 [e|a]]; simpl in *; [|now exists evs1].
  destruct (h e) as [k|] eqn:Ek; [|now exists evs1].
  destruct (Hh e k Ek s1) as (evs2 & E2 & O2). apply filter_unobserved in O2.
  exists (evs1 ++ evs2). rewrite E2, E1, app_assoc. split; [reflexivity|].
  now rewrite List.filter_app, O2, app_nil_r.
Qed.

Lemma observes_with_exit {A} (P : list event -> Prop)
    (exit_ : option exn -> M W unit) (body : M W A) :
  (forall exc, unobserved sel (exit_ exc)) -> observes sel P body ->
  observes sel P (with_exit exit_ body).
Proof.
  intros Hx Hb s. unfold with_exit.
  destruct (Hb s) as (evs1 & E1 & O1).
  destruct (body s) as [s1 [e|a]]; simpl in *.
  - destruct (Hx (Some e) s1) as (evs2 & E2 & O2). apply filter_unobserved in O2.
    exists (evs1 ++ evs2).
    destruct (exit_ (Some e) s1) as [s2 [e'|[]]]; simpl in *;
      rewrite E2, E1, app_assoc, List.filter_app, O2, app_nil_r; now split.
  - destruct (Hx None s1) as (evs2 & E2 & O2). apply filter_unobserved in O2.
    exists (evs1 ++ evs2).
    destruct (exit_ None s1) as [s2 [e'|[]]]; simpl in *;
      rewrite E2, E1, app_assoc, List.filter_app, O2, app_nil_r; now split.
Qed.

End Observations.

Section StatementFacts.
Context {W : Type} (drv : Driver W) (env : environ).

Ltac unsent := unfold unobserved, fetchall, commit, rowcount; emits.

Lemma sends_execute (sql : string) :
  observes is_execute (eq [Execute sql]) (execute drv sql).
Proof.
  intros s. unfold execute, mbind, M_bind, emit, call. simpl.
  exists [Execute sql].
  destruct (cursor_execute drv sql (world s)) as [w [e|[]]]; now split.
Qed.

Lemma sends_in_connection {A} (P : list event -> Prop) (cs : string) (body : M W A) :
  P [] -> observes is_execute P body ->
  observes is_execute P (with_connection drv cs (with_cursor drv body)).
Proof.
  intros HP Hb. unfold with_connection, with_cursor.
  apply observes_bind_unobserved; [unsent | exact HP | intros _].
  apply observes_bind_unobserved; [unsent | exact HP | intros _].
  apply observes_bind_unobserved; [unsent | exact HP | intros _].
  apply observes_with_exit; [intros exc; unsent|].
  apply observes_bind_unobserved; [unsent | exact HP | intros _].
  apply observes_bind_unobserved; [unsent | exact HP | intros _].
  apply observes_with_exit; [intros exc; unsent | exact Hb].
Qed.

Lemma unsent_get_db_config : unobserved is_execute (get_db_config_m (W := W) env).
Proof. now apply emits_get_db_config. Qed.

Lemma sends_list_resources :
  observes is_execute (fun l => l = [] \/ l = [Execute catalog_query])
    (list_resources drv env).
Proof.
  unfold list_resources.
  apply observes_bind_unobserved; [apply unsent_get_db_config | now left | intros [config cs]].
  apply observes_try_except.
  - apply observes_bind_unobserved; [unsent | now left | intros _].
    unfold with_connection.
    apply observes_bind_unobserved; [unsent | now left | intros _].
    apply observes_bind_unobserved; [unsent | now left | intros _].
    apply observes_bind_unobserved; [unsent | now left | intros _].
    apply observes_with_exit; [intros exc; unsent|].
    apply observes_bind_unobserved; [unsent | now left | intros _].
    unfold with_cursor.
    apply observes_bind_unobserved; [unsent | now left | intros _].
    apply observes_bind_unobserved; [unsent | now left | intros _].
    apply observes_with_exit; [intros exc; unsent|].
    eapply observes_weaken;
      [|apply (observes_bind_then is_execute [Execute catalog_query] (eq []));
        [apply sends_execute | intros _; apply observes_unobserved; [unsent | reflexivity]]].
    intros l [-> | (l' & <- & ->)]; now right.
  - intros e k. unfold list_resources_handler.
    destruct (is_Error e); [|discriminate]. intros [= <-]. unsent.
Qed.

Lemma observes_lift_bind {A B} (P : list event -> Prop) (a : A) (f : A -> M W B) :
  observes is_execute P (f a) -> observes is_execute P (lift (inr a) ≫= f).
Proof. intros H s. exact (H s). Qed.

Lemma sends_read_resource (uri_str : string) :
  observes is_execute
    (fun l => l = [] \/ exists table, table_of_uri uri_str = inr table
                                    /\ l = [Execute ("SELECT TOP 100 * FROM " +:+ table)])
    (read_resource drv env uri_str).
Proof.
  unfold read_resource.
  apply observes_bind_unobserved; [apply unsent_get_db_config | now left | intros [config cs]].
  apply observes_bind_unobserved; [unsent | now left | intros _].
  destruct (negb _); [apply observes_unobserved; [unsent | now left]|].
  destruct (table_of_uri_total uri_str) as [table Et]. rewrite Et.
  apply observes_lift_bind.
  apply observes_try_except.
  - apply sends_in_connection; [now left|].
    eapply observes_weaken;
      [|apply (observes_bind_then is_execute
                 [Execute ("SELECT TOP 100 * FROM " +:+ table)] (eq []));
        [apply sends_execute | intros _; apply observes_unobserved; [unsent | reflexivity]]].
    intros l Hl. right. exists table. split; [reflexivity|].
    destruct Hl as [-> | (l' & <- & ->)]; reflexivity.
  - intros e k. unfold read_resource_handler.
    destruct (is_Error e); [|discriminate]. intros [= <-]. unsent.
Qed.

Lemma sends_call_tool_body (cfg : db_config) (cs q : string) :
  observes is_execute (call_tool_sends q) (call_tool_body drv cfg cs q).
Proof.
  unfold call_tool_body. apply sends_in_connection; [now left|].
  destruct (String.eqb (upper (strip q)) "SHOW TABLES") eqn:Hshow.
  - apply String.eqb_eq in Hshow.
    eapply observes_weaken;
      [|apply (observes_bind_then is_execute [Execute q] (eq [Execute catalog_query]));
        [apply sends_execute | intros _]].
    + intros l [-> | (l' & <- & ->)]; [right; now left | right; right; now split].
    + eapply observes_weaken;
        [|apply (observes_bind_then is_execute [Execute catalog_query] (eq []));
          [apply sends_execute
          |intros _; apply observes_unobserved; [cbv zeta; unsent | reflexivity]]].
      intros l [-> | (l' & <- & ->)]; reflexivity.
  - eapply observes_weaken;
      [|apply (observes_bind_then is_execute [Execute q] (eq []));
        [apply sends_execute | intros _; apply observes_unobserved; [|reflexivity]]].
    + intros l [-> | (l' & <- & ->)]; right; now left.
    + destruct (startswith _ _); unsent.
Qed.

Lemma sends_call_tool (name : string) (arguments : list (string * string)) :
  observes is_execute
    (fun l => l = [] \/ exists q, dict_get arguments "query" = Some q
                                /\ call_tool_sends q l)
    (call_tool drv env name arguments).
Proof.
  unfold call_tool.
  apply observes_bind_unobserved; [apply unsent_get_db_config | now left | intros [config cs]].
  apply observes_bind_unobserved; [unsent | now left | intros _].
  destruct (negb _); [apply observes_unobserved; [unsent | now left]|].
  destruct (dict_get arguments "query") as [q|];
    [|apply observes_unobserved; [unsent | now left]].
  destruct (negb (truthy q)); [apply observes_unobserved; [unsent | now left]|].
  apply observes_try_except; [|intros e k [= <-]; unsent].
  eapply observes_weaken; [|apply sends_call_tool_body].
  intros l Hl. right. now exists q.
Qed.

End StatementFacts.

(** X19: the handlers send to the server nothing but these statements,
    whatever the driver does: [list_resources] the catalogue query;
    [read_resource] the one statement [SELECT TOP 100 * FROM <table>] with
    the first path segment of the address as it is; [call_tool] the text of
    the argument [query] as it is (neither trimmed nor changed) and, after
    it, at most the catalogue query; for a query of ASCII text the
    catalogue query follows only when the text, trimmed and upper-cased, is
    SHOW TABLES. *)
Theorem only_these_statements_are_sent {W : Type} (drv : Driver W)
    (env : environ) (uri_str name : string) (arguments : list (string * string))
    (s : state W) :
  (exists evs, trace (fst (list_resources drv env s)) = trace s ++ evs
               /\ (List.filter is_execute evs = []
                   \/ List.filter is_execute evs = [Execute catalog_query]))
  /\ (exists evs, trace (fst (read_resource drv env uri_str s)) = trace s ++ evs
                  /\ (List.filter is_execute evs = []
                      \/ exists table,
                           table_of_uri uri_str = inr table
                           /\ List.filter is_execute evs
                              = [Execute ("SELECT TOP 100 * FROM " +:+ table)]))
  /\ (exists evs, trace (fst (call_tool drv env name arguments s)) = trace s ++ evs
                  /\ (List.filter is_execute evs = []
                      \/ exists q,
                           dict_get arguments "query" = Some q
                           /\ (List.filter is_execute evs = [Execute q]
                               \/ (List.filter is_execute evs
                                   = [Execute q; Execute catalog_query]
                                   /\ (isascii q = true ->
                                       upper (strip q) = "SHOW TABLES"))))).
Proof.
  split; [|split].
  - apply sends_list_resources.
  - apply sends_read_resource.
  - destruct (sends_call_tool drv env name arguments s) as (evs & E & H).
    exists evs. split; [exact E|].
    destruct H as [H | (q & Hq & [H | [H | H]])];
      [now left | now left | right; exists q; tauto | right; exists q; tauto].
Qed.

(** ** A statement the server rejects *)

(** X20: when the connection and the cursor are there and the server
    rejects the statement with a [pyodbc.Error], cursor and connection are
    left with that error in flight; [list_resources] then logs it and
    returns the empty list, and [read_resource] logs it and raises the
    run-time error [Database error: <text>]. *)
Theorem rejected_statement_in_listing_and_reading {W : Type} (drv : Driver W)
    (env : environ) (logs : list log_record) (cfg : db_config)
    (cs table msg msg' : string) (s : state W) (w1 w2 w3 w4 w5 v3 v4 v5 : W) :
  get_db_config env = (logs, inr (cfg, cs)) ->
  count "/" table = 0 ->
  connect drv cs (world s) = (w1, inr tt) ->
  conn_cursor drv w1 = (w2, inr tt) ->
  cursor_execute drv catalog_query w2 = (w3, inl (Error msg)) ->
  cursor_exit drv (Some (Error msg)) w3 = (w4, inr tt) ->
  conn_exit drv (Some (Error msg)) w4 = (w5, inr tt) ->
  cursor_execute drv ("SELECT TOP 100 * FROM " +:+ table) w2 = (v3, inl (Error msg')) ->
  cursor_exit drv (Some (Error msg')) v3 = (v4, inr tt) ->
  conn_exit drv (Some (Error msg')) v4 = (v5, inr tt) ->
  snd (list_resources drv env s) = inr []
  /\ world (fst (list_resources drv env s)) = w5
  /\ read_resource drv env ("mssql://" +:+ table +:+ "/data") s
     = ({| world := v5;
           trace := (trace s ++ map Log logs)
                    ++ [Log (INFO, "Reading resource: "
                                   +:+ ("mssql://" +:+ table +:+ "/data"));
                        Connect cs; Opened; Cursor;
                        Execute ("SELECT TOP 100 * FROM " +:+ table);
                        CursorExit; ConnExit;
                        Log (ERROR, "Database error reading resource "
                                    +:+ ("mssql://" +:+ table +:+ "/data")
                                    +:+ ": " +:+ msg')] |},
        inl (RuntimeError ("Database error: " +:+ msg'))).
Proof.
  intros Hcfg Htable H1 H2 H3 H4 H5 G3 G4 G5.
  assert (Hlist : snd (list_resources drv env s) = inr []
                  /\ world (fst (list_resources drv env s)) = w5).
  { unfold list_resources. run_monad. rewrite Hcfg. run_monad.
    rewrite H1. run_monad. rewrite H2. run_monad. rewrite H3. run_monad.
    rewrite H4. run_monad. rewrite H5. run_monad.
    unfold list_resources_handler. cbn [is_Error exn_str]. run_monad.
    destruct (contains msg "Login timeout expired"); run_monad; [now split|].
    destruct (contains msg "Cannot open database"); run_monad; [now split|].
    destruct (contains msg "Login failed"); run_monad; now split. }
  destruct Hlist as [Hl1 Hl2]. split; [exact Hl1|]. split; [exact Hl2|].
  unfold read_resource. run_monad. rewrite Hcfg. run_monad.
  rewrite startswith_scheme. cbn [negb].
  rewrite (table_of_uri_address table Htable). run_monad.
  rewrite H1. run_monad. rewrite H2. run_monad. rewrite G3. run_monad.
  rewrite G4. run_monad. rewrite G5. run_monad.
  unfold read_resource_handler. cbn [is_Error exn_str]. run_monad.
  rewrite <- !app_assoc. reflexivity.
Qed.

Lemma rejected_statement_in_listing_and_reading_witness :
  snd (list_resources Mock.driver env_plain (Mock.start shop_without_catalog)) = inr []
  /\ snd (read_resource Mock.driver env_plain ("mssql://" +:+ "Customers" +:+ "/data")
            (Mock.start shop_without_catalog))
     = inl (RuntimeError "Database error: 42000 Incorrect syntax.").
Proof.
  split.
  - eapply proj1.
    eapply (rejected_statement_in_listing_and_reading Mock.driver env_plain
              _ _ _ "Customers");
      vm_compute; reflexivity.
  - etransitivity.
    + eapply (f_equal snd). eapply proj2. eapply proj2.
      eapply (rejected_statement_in_listing_and_reading Mock.driver env_plain
                _ _ _ "Customers");
        vm_compute; reflexivity.
    + vm_compute. reflexivity.
Defined.
